(** * YouTube content generator: response parsing, metrics, retry and session state

    A shallow embedding of [app.py].  The pure text functions
    ([extract_titles], [extract_tags], [analyze_content_metrics]) are total
    functions on strings; the generation client and the two button handlers
    ("Generate Content", "Clear All Results") are programs of a small
    state-and-exception monad over the Streamlit session and a log of the
    calls made to the outside world.

    Text.  A Python [str] is modelled by a Rocq [string] whose characters are
    read as the code points 0..255; on those code points [str.isspace],
    [str.lower] and the regular-expression classes [\s] and [\d] are the
    ones written below. *)

From Stdlib Require Import String Ascii List ZArith Lia Bool Sorted DecimalString.
From stdpp Require Import base gmap strings.
Import ListNotations.

Local Open Scope string_scope.
Local Open Scope list_scope.
Local Open Scope nat_scope.

(* ================================================================== *)
(** ** Characters and strings, as Python handles them                  *)
(* ================================================================== *)

Module PyText.

(** [str.isspace] / [\s]: TAB..CR, FS..US, space, NEL and NBSP. *)
Definition is_space (c : ascii) : bool :=
  let n := nat_of_ascii c in
  ((9 <=? n) && (n <=? 13)) || ((28 <=? n) && (n <=? 32))
  || (n =? 133) || (n =? 160).

(** [\d]: the decimal digits. *)
Definition is_digit (c : ascii) : bool :=
  let n := nat_of_ascii c in (48 <=? n) && (n <=? 57).

(** One character of [str.lower]: A..Z and the Latin-1 capitals
    (À..Þ without the multiplication sign) move up by 32. *)
Definition lower_char (c : ascii) : ascii :=
  let n := nat_of_ascii c in
  if ((65 <=? n) && (n <=? 90))
     || ((192 <=? n) && (n <=? 222) && negb (n =? 215))
  then ascii_of_nat (n + 32) else c.

Fixpoint lower (s : string) : string :=
  match s with
  | EmptyString => EmptyString
  | String c s' => String (lower_char c) (lower s')
  end.

(** Truthiness of a string: non-empty. *)
Definition truthy (s : string) : bool :=
  match s with EmptyString => false | String _ _ => true end.

Fixpoint lstrip (s : string) : string :=
  match s with
  | EmptyString => EmptyString
  | String c s' => if is_space c then lstrip s' else s
  end.

Fixpoint rstrip (s : string) : string :=
  match s with
  | EmptyString => EmptyString
  | String c s' =>
      match rstrip s' with
      | EmptyString => if is_space c then EmptyString else String c EmptyString
      | r => String c r
      end
  end.

(** [s.strip()] *)
Definition strip (s : string) : string := rstrip (lstrip s).

(** [pat in s] *)
Fixpoint contains (pat s : string) : bool :=
  if String.prefix pat s then true
  else match s with
       | EmptyString => false
       | String _ s' => contains pat s'
       end.

(** [s.split(sep)] for a one-character separator: never an empty list,
    empty pieces are kept. *)
Fixpoint split_on (sep : ascii) (s : string) : list string :=
  match s with
  | EmptyString => [EmptyString]
  | String c s' =>
      if Ascii.eqb c sep then EmptyString :: split_on sep s'
      else match split_on sep s' with
           | piece :: rest => String c piece :: rest
           | [] => [String c EmptyString]
           end
  end.

(** [s.split()]: the maximal runs of non-whitespace characters. *)
Fixpoint split_ws (s : string) : list string :=
  match s with
  | EmptyString => []
  | String c s' =>
      if is_space c then split_ws s'
      else match s' with
           | EmptyString => [String c EmptyString]
           | String d _ =>
               if is_space d then String c EmptyString :: split_ws s'
               else match split_ws s' with
                    | word :: rest => String c word :: rest
                    | [] => [String c EmptyString]
                    end
           end
  end.

(** The character class of the tag separator [[,;|]]. *)
Definition is_sep (c : ascii) : bool :=
  Ascii.eqb c "," || Ascii.eqb c ";" || Ascii.eqb c "|".

(** [re.split(r'[,;|]+', s)]: the pieces between the maximal runs of
    separators; a run at either end leaves an empty piece there. *)
Fixpoint re_split_seps (s : string) : list string :=
  match s with
  | EmptyString => [EmptyString]
  | String c s' =>
      if is_sep c then
        match s' with
        | String d _ =>
            if is_sep d then re_split_seps s'
            else EmptyString :: re_split_seps s'
        | EmptyString => EmptyString :: re_split_seps s'
        end
      else match re_split_seps s' with
           | piece :: rest => String c piece :: rest
           | [] => [String c EmptyString]
           end
  end.

(** [str(n)] for an integer. *)
Definition str_of_int (n : Z) : string := NilZero.string_of_int (Z.to_int n).

(** [len(s)] *)
Definition len (s : string) : Z := Z.of_nat (String.length s).

Definition LF : ascii := "010"%char.

(** [sep.join(parts)], used to write multi-line texts in the examples. *)
Fixpoint join (sep : string) (parts : list string) : string :=
  match parts with
  | [] => EmptyString
  | [p] => p
  | p :: rest => p +:+ sep +:+ join sep rest
  end.

Definition unlines : list string -> string := join (String LF EmptyString).

End PyText.
Import PyText.

(* ================================================================== *)
(** ** Response parser                                                 *)
(* ================================================================== *)

Fixpoint skip_digits (s : string) : string :=
  match s with
  | String c s' => if is_digit c then skip_digits s' else s
  | EmptyString => EmptyString
  end.

(** [re.match(r'^\d+\.\s*(.+)', s)], giving [group(1)].  The subject is
    always a stripped line of [response.split('\n')]: it holds no line feed
    and does not end in whitespace, so the greedy run of [\s*] leaves a
    non-empty rest exactly when anything follows the period, and [.+] takes
    all of it. *)
Definition re_match_numbered (s : string) : option string :=
  match s with
  | EmptyString => None
  | String c _ =>
      if is_digit c then
        match skip_digits s with
        | String "."%char r =>
            match lstrip r with
            | EmptyString => None
            | g => Some g
            end
        | _ => None
        end
      else None
  end.

Fixpoint skip_to_close (s : string) : string :=
  match s with
  | String c s' => if Ascii.eqb c ")" then s else skip_to_close s'
  | EmptyString => EmptyString
  end.

(** Does [\s*\([^)]*\)$] match at the start of [s]?  (The subject holds no
    line feed, so [$] is the end of the string.) *)
Definition paren_tail (s : string) : bool :=
  match lstrip s with
  | String "("%char r =>
      match skip_to_close r with
      | String ")"%char EmptyString => true
      | _ => false
      end
  | _ => false
  end.

(** [re.sub(r'\s*\([^)]*\)$', '', title)]: the leftmost position where the
    pattern matches is cut off together with everything after it. *)
Fixpoint strip_parenthetical (title : string) : string :=
  if paren_tail title then EmptyString
  else match title with
       | EmptyString => EmptyString
       | String c rest => String c (strip_parenthetical rest)
       end.

(** One turn of the loop of [extract_titles]. *)
Definition titles_step (titles : list string) (line : string) : list string :=
  match re_match_numbered (strip line) with
  | Some g => titles ++ [strip_parenthetical (strip g)]
  | None => titles
  end.

Definition extract_titles (response : string) : list string :=
  let lines := split_on LF response in
  let titles := fold_left titles_step lines [] in
  firstn 8 titles.

(** The tag list of one line:
    [[tag.strip() for tag in re.split(r'[,;|]+', line) if tag.strip()]]. *)
Definition line_tags (line : string) : list string :=
  map strip (List.filter (fun tag => truthy (strip tag)) (re_split_seps line)).

(** The variables of the labeled-section loop of [extract_tags];
    [current_section] is [None] or one of the strings the loop assigns. *)
Record scan := Scan {
  current_section : option string;
  primary : list string;
  secondary : list string;
  trending : list string
}.

Definition scan_init : scan := Scan None [] [] [].

Definition set_section (name : string) (st : scan) : scan :=
  Scan (Some name) (primary st) (secondary st) (trending st).

(** One turn of the loop over [response.split('\n')]: the [if]/[elif] chain
    in the order of the source.  Each marker test looks for the literal in
    [line.lower()]. *)
Definition scan_line (st : scan) (line : string) : scan :=
  if contains "Primary tags:" (lower line) then set_section "primary" st
  else if contains "Secondary tags:" (lower line) then set_section "secondary" st
  else if contains "Trending tags:" (lower line) then set_section "trending" st
  else
    match current_section st with
    | Some section =>
        if truthy section && truthy (strip line) then
          let tags := line_tags line in
          if String.eqb section "primary" then
            Scan (Some section) (primary st ++ tags) (secondary st) (trending st)
          else if String.eqb section "secondary" then
            Scan (Some section) (primary st) (secondary st ++ tags) (trending st)
          else if String.eqb section "trending" then
            Scan (Some section) (primary st) (secondary st) (trending st ++ tags)
          else st
        else st
    | None => st
    end.

(** The fallback filter [2 < len(tag.strip()) < 30]. *)
Definition fallback_keeps (tag : string) : bool :=
  ((2 <? len (strip tag)) && (len (strip tag) <? 30))%Z.

(** [extract_tags]: the returned dictionary, as the list of its items in
    the order of the dictionary display. *)
Definition extract_tags (response : string) : list (string * list string) :=
  if contains "Primary tags:" response || contains "Secondary tags:" response
  then
    let st := fold_left scan_line (split_on LF response) scan_init in
    [ ("primary", firstn 7 (primary st));
      ("secondary", firstn 10 (secondary st));
      ("trending", firstn 7 (trending st));
      ("all", firstn 20 (primary st ++ secondary st ++ trending st)) ]
  else
    let all_tags := map strip (List.filter fallback_keeps (re_split_seps response)) in
    [ ("all", firstn 20 all_tags) ].

(** [d.get(key)] on a dictionary given by its items. *)
Fixpoint dict_lookup {V : Type} (d : list (string * V)) (key : string) : option V :=
  match d with
  | [] => None
  | (k, v) :: rest => if String.eqb k key then Some v else dict_lookup rest key
  end.

(* ================================================================== *)
(** ** Content analyzer                                                *)
(* ================================================================== *)

(** [d[key] = v] on an insertion-ordered dictionary: an existing key keeps
    its place, a new key goes to the end. *)
Fixpoint dict_set {V : Type} (d : list (string * V)) (key : string) (v : V)
  : list (string * V) :=
  match d with
  | [] => [(key, v)]
  | (k, v0) :: rest =>
      if String.eqb k key then (k, v) :: rest
      else (k, v0) :: dict_set rest key v
  end.

(** One turn of the keyword loop:
    [if len(word) > 3: word_freq[word] = word_freq.get(word, 0) + 1]. *)
Definition count_word (word_freq : list (string * Z)) (word : string)
  : list (string * Z) :=
  if (3 <? len word)%Z
  then dict_set word_freq word (default 0%Z (dict_lookup word_freq word) + 1)%Z
  else word_freq.

(** Insertion into a list that is already in descending order of count:
    the new item goes in front of the first item whose count is not
    greater. *)
Fixpoint insert_desc (x : string * Z) (l : list (string * Z)) : list (string * Z) :=
  match l with
  | [] => [x]
  | y :: l' => if (snd x <? snd y)%Z then y :: insert_desc x l' else x :: y :: l'
  end.

(** [sorted(items, key=lambda x: x[1], reverse=True)].  Python's sort is
    stable, with [reverse=True] as well: items of equal count keep the order
    they had, which fixes the result; it is computed here by insertion from
    the right. *)
Definition sorted_by_count_desc (items : list (string * Z)) : list (string * Z) :=
  fold_right insert_desc [] items.

Record metrics := Metrics {
  word_count : Z;
  char_count : Z;
  reading_time : Z;
  top_keywords : list (string * Z)
}.

Definition analyze_content_metrics (content : string) : metrics :=
  let word_count := Z.of_nat (length (split_ws content)) in
  let char_count := len content in
  let estimated_reading_time := Z.max 1 (word_count / 200) in
  let words := split_ws (lower content) in
  let word_freq := fold_left count_word words [] in
  let top_keywords := firstn 10 (sorted_by_count_desc word_freq) in
  Metrics word_count char_count estimated_reading_time top_keywords.

(* ================================================================== *)
(** ** Python values, the session and the outside world                *)
(* ================================================================== *)

(** The values the script stores in [st.session_state]. *)
#[warnings="-register-all"]
Inductive pyval : Type :=
| PyNone
| PyBool (b : bool)
| PyInt (n : Z)
| PyStr (s : string)
| PyList (items : list pyval)
| PyTuple (items : list pyval)
| PyDict (items : list (string * pyval)).

Definition py_strs (l : list string) : pyval := PyList (map PyStr l).

Definition py_tags (d : list (string * list string)) : pyval :=
  PyDict (map (fun kv => (fst kv, py_strs (snd kv))) d).

Definition py_metrics (m : metrics) : pyval :=
  PyDict [ ("word_count", PyInt (word_count m));
           ("char_count", PyInt (char_count m));
           ("reading_time", PyInt (reading_time m));
           ("top_keywords",
            PyList (map (fun kv => PyTuple [PyStr (fst kv); PyInt (snd kv)])
                        (top_keywords m))) ].

(** [bool(v)] *)
Definition py_truth (v : pyval) : bool :=
  match v with
  | PyNone => false
  | PyBool b => b
  | PyInt n => negb (n =? 0)%Z
  | PyStr s => truthy s
  | PyList l | PyTuple l => match l with [] => false | _ => true end
  | PyDict d => match d with [] => false | _ => true end
  end.

(** What the script does to the outside world, in order. *)
Inductive event : Type :=
| EvGenerate (prompt : string)      (* model.generate_content(prompt) *)
| EvSleep (millis : Z)              (* time.sleep(millis / 1000) *)
| EvError (msg : string)            (* st.error(msg) *)
| EvSuccess (msg : string)          (* st.success(msg) *)
| EvEmpty (widget : string)         (* widget.empty() *)
| EvStatus (msg : string)           (* status_text.text(msg) *)
| EvProgress (done total : Z)       (* progress_bar.progress(done / total) *)
| EvMarkdown (html : string).       (* st.markdown(html, ...) *)

(** What one call of the generation endpoint gives: the text of the
    response, or an exception with its [str(e)]. *)
Inductive outcome : Type :=
| Text (text : string)
| Failure (description : string).

Record env := Env {
  session : gmap string pyval;    (* st.session_state *)
  calls : nat;                    (* endpoint calls made so far *)
  log : list event
}.

(** A statement either completes with a value or raises; the exception is
    carried as its [str(e)]. *)
Inductive result (A : Type) : Type :=
| Val (a : A)
| Raise (e : string).
Arguments Val {A} a.
Arguments Raise {A} e.

Definition prog (A : Type) : Type := env -> result A * env.

Definition ret {A} (a : A) : prog A := fun w => (Val a, w).

Definition raise {A} (e : string) : prog A := fun w => (Raise e, w).

Definition bind {A B} (m : prog A) (k : A -> prog B) : prog B :=
  fun w => match m w with
           | (Val a, w') => k a w'
           | (Raise e, w') => (Raise e, w')
           end.

(** [try: body  except Exception as e: handler(e)] *)
Definition try_except {A} (body : prog A) (handler : string -> prog A) : prog A :=
  fun w => match body w with
           | (Val a, w') => (Val a, w')
           | (Raise e, w') => handler e w'
           end.

Declare Scope prog_scope.
Delimit Scope prog_scope with prog.
Bind Scope prog_scope with prog.
Notation "x <- m ;; k" := (bind m (fun x => k))
  (at level 20, m at level 99, k at level 200, only parsing) : prog_scope.
Notation "m ;; k" := (bind m (fun _ => k))
  (at level 100, k at level 200, only parsing, right associativity) : prog_scope.
Local Open Scope prog_scope.

Definition emit (ev : event) : prog unit :=
  fun w => (Val tt, Env (session w) (calls w) (log w ++ [ev])).

(** [st.session_state[key]] *)
Definition get_state (key : string) : prog pyval :=
  fun w => match session w !! key with
           | Some v => (Val v, w)
           | None => (Raise ("st.session_state has no key " +:+ key), w)
           end.

(** [st.session_state[key] = v] *)
Definition set_state (key : string) (v : pyval) : prog unit :=
  fun w => (Val tt, Env (<[key := v]> (session w)) (calls w) (log w)).

(** [len(v)] *)
Definition py_len (v : pyval) : prog Z :=
  match v with
  | PyStr s => ret (len s)
  | PyList l | PyTuple l => ret (Z.of_nat (length l))
  | PyDict d => ret (Z.of_nat (length d))
  | _ => raise "object has no len()"
  end.

(** [v.get(key, default)] *)
Definition py_get (v : pyval) (key : string) (default : pyval) : prog pyval :=
  match v with
  | PyDict d => ret (match dict_lookup d key with Some x => x | None => default end)
  | _ => raise "object has no attribute 'get'"
  end.

(** [range(n)] *)
Definition py_range (n : Z) : list Z := map Z.of_nat (seq 0 (Z.to_nat n)).

(* ================================================================== *)
(** ** Prompt builder                                                  *)
(* ================================================================== *)

Definition create_title_prompt (content video_type target_audience keywords tone style_preferences : string) : string :=
  "As a YouTube SEO expert, generate 8 compelling, click-worthy titles for a "
  +:+ video_type
  +:+ " video targeting "
  +:+ target_audience
  +:+ ".

Content Summary: "
  +:+ content
  +:+ "

Requirements:
- Primary Keywords: "
  +:+ keywords
  +:+ "
- Tone: "
  +:+ tone
  +:+ "
- Style Preferences: "
  +:+ style_preferences
  +:+ "
- Character count: 40-70 characters
- Include power words and emotional triggers
- Ensure SEO optimization
- Avoid clickbait but maintain curiosity
- Include numbers where relevant
- Consider trending formats

Provide exactly 8 titles, numbered 1-8, with brief explanations of why each title works.
".

Definition create_description_prompt (content video_type target_audience keywords channel_info video_length : string) : string :=
  "As a YouTube SEO specialist, write a comprehensive, SEO-optimized description for a "
  +:+ video_type
  +:+ " video targeting "
  +:+ target_audience
  +:+ ".

Video Summary: "
  +:+ content
  +:+ "
Channel Information: "
  +:+ channel_info
  +:+ "
Target Keywords: "
  +:+ keywords
  +:+ "
Estimated Video Length: "
  +:+ video_length
  +:+ "

Structure the description with:
1. Hook (first 125 characters - crucial for search results)
2. Detailed video overview (200-300 words)
3. Key timestamps (create realistic placeholders)
4. Call-to-action section
5. Social media links placeholder
6. 5-8 relevant hashtags
7. Additional resources/links section

Focus on:
- SEO keyword integration
- Engaging first paragraph
- Clear value proposition
- Community engagement elements
- Accessibility considerations
".

Definition create_tags_prompt (content video_type keywords competitor_analysis : string) : string :=
  "Generate 20 strategic YouTube tags for a "
  +:+ video_type
  +:+ " video to maximize discoverability.

Video Content: "
  +:+ content
  +:+ "
Primary Keywords: "
  +:+ keywords
  +:+ "
Competitor Insights: "
  +:+ competitor_analysis
  +:+ "

Provide tags in three categories:
1. Primary tags (5-7): Main topic keywords
2. Secondary tags (8-10): Related and long-tail keywords  
3. Trending tags (5-7): Current trending topics in the niche

Format: Return as comma-separated list with category labels.
".

Definition create_thumbnail_prompt (content video_type target_audience : string) : string :=
  "Suggest 5 effective thumbnail concepts for a "
  +:+ video_type
  +:+ " video targeting "
  +:+ target_audience
  +:+ ".

Video Content: "
  +:+ content
  +:+ "

For each thumbnail concept, provide:
1. Visual elements description
2. Text overlay suggestions (max 6 words)
3. Color scheme recommendations
4. Emotional appeal strategy
5. A/B testing variations

Focus on:
- High contrast and readability
- Emotional expressions if featuring people
- Clear visual hierarchy
- Mobile optimization
- Brand consistency
".

(* ================================================================== *)
(** ** Generation client and the button handlers                       *)
(* ================================================================== *)

(** The widget values of one run of the script. *)
Record form := Form {
  video_script : string;
  video_length : string;
  video_type : string;
  target_audience : string;
  tone : string;
  keywords : string;
  style_preferences : string;
  channel_info : string;
  competitor_analysis : string;
  max_titles : Z;               (* slider "Number of titles to generate", 3..10 *)
  include_analytics : bool;
  save_history : bool;
  generate_titles : bool;
  generate_desc : bool;
  generate_tags : bool;
  generate_thumb : bool
}.

(** The range of the [max_titles] slider. *)
Definition slider_ok (f : form) : Prop := (3 <= max_titles f <= 10)%Z.

Definition dq : string := String (ascii_of_nat 34) EmptyString.

Definition success_banner : string :=
  "<div class=" +:+ dq +:+ "success-message" +:+ dq
  +:+ ">Content generated successfully!</div>".

Definition error_banner (e : string) : string :=
  "<div class=" +:+ dq +:+ "error-message" +:+ dq
  +:+ ">Error during generation: " +:+ e +:+ "</div>".

(** The defaults of [initialize_session_state]. *)
Definition defaults : list (string * pyval) :=
  [ ("titles", PyList []);
    ("description", PyStr "");
    ("tags", PyDict []);
    ("thumbnail_concepts", PyStr "");
    ("generation_history", PyList []);
    ("content_metrics", PyDict []);
    ("selected_title", PyStr "");
    ("custom_tags", PyList []);
    ("export_data", PyDict []) ].

(** [if key not in st.session_state: st.session_state[key] = default_value] *)
Definition init_key (kv : string * pyval) : prog unit :=
  fun w => match session w !! fst kv with
           | Some _ => (Val tt, w)
           | None => set_state (fst kv) (snd kv) w
           end.

(** [for x in xs: body(x)] *)
Fixpoint for_each {A} (xs : list A) (body : A -> prog unit) : prog unit :=
  match xs with
  | [] => ret tt
  | x :: rest => body x ;; for_each rest body
  end.

Definition initialize_session_state : prog unit := for_each defaults init_key.

(** [key in keys] *)
Definition key_in (key : string) (keys : list string) : bool :=
  existsb (String.eqb key) keys.

Definition clear_keys : list string :=
  [ "titles"; "description"; "tags"; "thumbnail_concepts"; "content_metrics";
    "selected_title" ].

(** [[] if key in ['titles'] else {} if key in ['tags', 'content_metrics'] else ""] *)
Definition cleared_value (key : string) : pyval :=
  if key_in key ["titles"] then PyList []
  else if key_in key ["tags"; "content_metrics"] then PyDict []
  else PyStr "".

(** The "Clear All Results" button. *)
Definition on_clear : prog unit :=
  for_each clear_keys (fun key => set_state key (cleared_value key)).

(** A "Select" button next to a displayed title. *)
Definition on_select (title : string) : prog unit :=
  set_state "selected_title" (PyStr title) ;;
  emit (EvSuccess ("Selected: " +:+ title)).

(** [extract_titles(response)] on whatever the client returned: [None] has
    no [split]. *)
Definition extract_titles_of (response : pyval) : prog pyval :=
  match response with
  | PyStr s => ret (py_strs (extract_titles s))
  | _ => raise "'NoneType' object has no attribute 'split'"
  end.

(** [extract_tags(response)]: the [in] test fails on [None]. *)
Definition extract_tags_of (response : pyval) : prog pyval :=
  match response with
  | PyStr s => ret (py_tags (extract_tags s))
  | _ => raise "argument of type 'NoneType' is not iterable"
  end.

(** [current_task += 1; progress_bar.progress(current_task / total_tasks)] *)
Definition advance (current_task total_tasks : Z) : prog Z :=
  emit (EvProgress (current_task + 1) total_tasks) ;;
  ret (current_task + 1)%Z.

Definition b2z (b : bool) : Z := if b then 1%Z else 0%Z.

Section Client.

(** The generation endpoint: the outcome of call number [i] (counted from
    the start of the session) on a prompt. *)
Variable endpoint : nat -> string -> outcome.

(** [model.generate_content(prompt)] followed by [response.text]. *)
Definition generate_content (prompt : string) : prog string :=
  fun w =>
    let w' := Env (session w) (S (calls w)) (log w ++ [EvGenerate prompt]) in
    match endpoint (calls w) prompt with
    | Text t => (Val t, w')
    | Failure d => (Raise d, w')
    end.

(** The body of the [for attempt in range(max_retries)] loop of
    [call_gemini_with_retry], over the attempts still to make.  Leaving the
    loop without a [return] gives [None]. *)
Fixpoint retry_loop (prompt : string) (max_retries : Z) (attempts : list Z)
  : prog pyval :=
  match attempts with
  | [] => ret PyNone
  | attempt :: later =>
      try_except
        (response <- generate_content prompt ;;
         ret (PyStr (strip response)))
        (fun e =>
           if (attempt =? max_retries - 1)%Z
           then ret (PyStr ("Error: Unable to generate content after "
                            +:+ str_of_int max_retries +:+ " attempts. " +:+ e))
           else emit (EvSleep 1000) ;; retry_loop prompt max_retries later)
  end.

Definition call_gemini_with_retry (prompt : string) (max_retries : Z) : prog pyval :=
  retry_loop prompt max_retries (py_range max_retries).


(** The default [max_retries=3] of the calls in the script. *)
Definition default_retries : Z := 3.

Definition titles_task (f : form) (total_tasks current_task : Z) : prog Z :=
  if generate_titles f then
    emit (EvStatus "Generating titles...") ;;
    let prompt := create_title_prompt (video_script f) (video_type f)
                    (target_audience f) (keywords f) (tone f) (style_preferences f) in
    response <- call_gemini_with_retry prompt default_retries ;;
    titles <- extract_titles_of response ;;
    set_state "titles" titles ;;
    advance current_task total_tasks
  else ret current_task.

Definition description_task (f : form) (total_tasks current_task : Z) : prog Z :=
  if generate_desc f then
    emit (EvStatus "Generating description...") ;;
    let prompt := create_description_prompt (video_script f) (video_type f)
                    (target_audience f) (keywords f) (channel_info f) (video_length f) in
    description <- call_gemini_with_retry prompt default_retries ;;
    set_state "description" description ;;
    advance current_task total_tasks
  else ret current_task.

Definition tags_task (f : form) (total_tasks current_task : Z) : prog Z :=
  if generate_tags f then
    emit (EvStatus "Generating tags...") ;;
    let prompt := create_tags_prompt (video_script f) (video_type f)
                    (keywords f) (competitor_analysis f) in
    response <- call_gemini_with_retry prompt default_retries ;;
    tags <- extract_tags_of response ;;
    set_state "tags" tags ;;
    advance current_task total_tasks
  else ret current_task.

Definition thumbnail_task (f : form) (total_tasks current_task : Z) : prog Z :=
  if generate_thumb f then
    emit (EvStatus "Generating thumbnail concepts...") ;;
    let prompt := create_thumbnail_prompt (video_script f) (video_type f)
                    (target_audience f) in
    concepts <- call_gemini_with_retry prompt default_retries ;;
    set_state "thumbnail_concepts" concepts ;;
    advance current_task total_tasks
  else ret current_task.

(** The [if save_history:] block; [now] is [datetime.now().isoformat()]. *)
Definition history_task (f : form) (now : string) : prog unit :=
  if save_history f then
    titles <- get_state "titles" ;;
    n_titles <- py_len titles ;;
    description <- get_state "description" ;;
    tags <- get_state "tags" ;;
    all_tags <- py_get tags "all" (PyList []) ;;
    n_tags <- py_len all_tags ;;
    thumbnails <- get_state "thumbnail_concepts" ;;
    let history_entry :=
      PyDict [ ("timestamp", PyStr now);
               ("video_type", PyStr (video_type f));
               ("keywords", PyStr (keywords f));
               ("generated_content",
                PyDict [ ("titles", PyInt n_titles);
                         ("description", PyBool (py_truth description));
                         ("tags", PyInt n_tags);
                         ("thumbnails", PyBool (py_truth thumbnails)) ]) ] in
    history <- get_state "generation_history" ;;
    match history with
    | PyList entries => set_state "generation_history" (PyList (entries ++ [history_entry]))
    | _ => raise "object has no attribute 'append'"
    end
  else ret tt.

(** The "Generate Content" button. *)
Definition on_generate (f : form) (now : string) : prog unit :=
  if negb (truthy (strip (video_script f))) then
    emit (EvError "Please provide the video script or summary.")
  else
    (if include_analytics f
     then set_state "content_metrics" (py_metrics (analyze_content_metrics (video_script f)))
     else ret tt) ;;
    emit (EvProgress 0 1) ;;
    emit (EvEmpty "status_text") ;;
    let total_tasks := (b2z (generate_titles f) + b2z (generate_desc f)
                        + b2z (generate_tags f) + b2z (generate_thumb f))%Z in
    try_except
      (current_task <- titles_task f total_tasks 0 ;;
       current_task <- description_task f total_tasks current_task ;;
       current_task <- tags_task f total_tasks current_task ;;
       current_task <- thumbnail_task f total_tasks current_task ;;
       history_task f now ;;
       emit (EvStatus "Generation complete!") ;;
       emit (EvProgress 1 1) ;;
       emit (EvSleep 500) ;;
       emit (EvEmpty "progress_bar") ;;
       emit (EvEmpty "status_text") ;;
       emit (EvMarkdown success_banner))
      (fun e => emit (EvMarkdown (error_banner e))).

End Client.

(* ================================================================== *)
(** ** Export, display conditions and the history list                 *)
(* ================================================================== *)

(** What a click on "Export Current Results" shows: the warning, the
    download button, or nothing.  [data] is the dictionary handed to
    [json.dumps(export_data, indent=2)]. *)
Inductive export_action : Type :=
| ExportWarning (msg : string)                       (* st.warning(msg) *)
| ExportDownload (label : string) (data : pyval) (file_name mime : string)
| ExportNothing.

(** The "Export Current Results" button; [now] is
    [datetime.now().isoformat()] and [stamp] is
    [datetime.now().strftime('%Y%m%d_%H%M%S')]. *)
Definition on_export (export_format now stamp : string) : prog export_action :=
  titles <- get_state "titles" ;;
  has_content <- (if py_truth titles then ret true
                  else description <- get_state "description" ;;
                       ret (py_truth description)) ;;
  if has_content : bool then
    titles <- get_state "titles" ;;
    description <- get_state "description" ;;
    tags <- get_state "tags" ;;
    metrics <- get_state "content_metrics" ;;
    let export_data :=
      PyDict [ ("timestamp", PyStr now); ("titles", titles);
               ("description", description); ("tags", tags);
               ("metrics", metrics) ] in
    if String.eqb export_format "JSON" then
      ret (ExportDownload "Download JSON" export_data
             ("youtube_content_" +:+ stamp +:+ ".json") "application/json")
    else ret ExportNothing
  else ret (ExportWarning "No content to export").

(** [if st.session_state.<key>:], the test in front of a display block. *)
Definition section_shown (key : string) : prog bool :=
  v <- get_state key ;; ret (py_truth v).

(** [any([titles, description, tags, thumbnail_concepts])], the test in
    front of the "Generated Content" header. *)
Definition results_shown : prog bool :=
  titles <- get_state "titles" ;;
  description <- get_state "description" ;;
  tags <- get_state "tags" ;;
  thumbnails <- get_state "thumbnail_concepts" ;;
  ret (py_truth titles || py_truth description || py_truth tags
       || py_truth thumbnails).

(** [l[-n:]] for a positive [n]. *)
Definition py_last {A : Type} (n : nat) (l : list A) : list A :=
  skipn (length l - n) l.

(** The entries the history expander lists, in the order it lists them:
    [reversed(st.session_state.generation_history[-10:])]. *)
Definition history_window {A : Type} (history : list A) : list A :=
  rev (py_last 10 history).

(* ================================================================== *)
(** ** Notions used to state the properties                            *)
(* ================================================================== *)

(** Every character of the string is whitespace (so also the empty one). *)
Fixpoint all_space (s : string) : bool :=
  match s with
  | EmptyString => true
  | String c s' => is_space c && all_space s'
  end.

(** The test that sends [extract_tags] into the labeled-section scan. *)
Definition labeled (response : string) : bool :=
  contains "Primary tags:" response || contains "Secondary tags:" response.

(** The categorized result with nothing in any list. *)
Definition no_tags : list (string * list string) :=
  [ ("primary", []); ("secondary", []); ("trending", []); ("all", []) ].

(** A character occurs in a string. *)
Definition occurs (c : ascii) (s : string) : Prop :=
  In c (list_ascii_of_string s).

Definition is_upper (c : ascii) : bool :=
  let n := nat_of_ascii c in (65 <=? n) && (n <=? 90).

(** No separator of the tag lists occurs in the token. *)
Definition sep_free (token : string) : Prop :=
  forall c, occurs c token -> is_sep c = false.

(** The response of the spec's example of a labeled answer. *)
Definition labeled_example : string :=
  unlines [ "Primary tags: a, b"; "Secondary tags: c"; "Trending tags: d, e" ].

(** The spec's example of an answer without labels, with a three-letter
    token added. *)
Definition flat_example : string := "go, x, validtagname, yz, abc".

(** The line, once stripped, is a numbered line: digits, a period,
    optional whitespace and some text. *)
Definition numbered_line (line : string) : bool :=
  match re_match_numbered (strip line) with
  | Some _ => true
  | None => false
  end.

(** The title a numbered line gives: the text after the number, trimmed,
    with the parenthetical at its end cut off. *)
Definition line_title (line : string) : string :=
  match re_match_numbered (strip line) with
  | Some g => strip_parenthetical (strip g)
  | None => EmptyString
  end.




Definition ten_titles : string :=
  unlines [ "Here are the titles:"; "1. One (short)"; "2. Two"; " 3. Three";
            "4. Four (why: numbers)"; "5. Five"; "not a title"; "6. Six";
            "7. Seven"; "8. Eight (last kept)"; "9. Nine"; "10. Ten" ].

(** The keys of a dictionary, in insertion order. *)
Definition keys {V : Type} (d : list (string * V)) : list string := map fst d.




Definition metrics_example : string :=
  "The quick quick brown foxes jump over this this lazy dogs Quick THIS a".

(** The log of [n] failed attempts on a prompt: the calls of the
    endpoint with a pause of one second between two of them. *)
Fixpoint failed_attempts (prompt : string) (n : nat) : list event :=
  match n with
  | 0 => []
  | S n' =>
      EvGenerate prompt ::
      match n' with
      | 0 => []
      | S _ => EvSleep 1000 :: failed_attempts prompt n'
      end
  end.

(** The text returned when the last attempt fails with [str(e) = e]. *)
Definition failure_text (max_retries : Z) (e : string) : string :=
  "Error: Unable to generate content after " +:+ str_of_int max_retries
  +:+ " attempts. " +:+ e.

(** An endpoint that is down. *)
Definition dead_endpoint : nat -> string -> outcome :=
  fun _ _ => Failure "503 service unavailable".

(** A session as the first run of the script leaves it. *)
Definition fresh : env := snd (initialize_session_state (Env ∅ 0 [])).

(** An endpoint that answers every prompt with eight numbered titles. *)
Definition eight_titles_endpoint : nat -> string -> outcome :=
  fun _ _ => Text (unlines [ "1. A"; "2. B"; "3. C"; "4. D"; "5. E"; "6. F";
                             "7. G"; "8. H" ]).

(** A form that asks for titles only, three of them, and keeps history. *)
Definition three_titles_form : form :=
  {| video_script := "How to bake sourdough bread at home";
     video_length := "5-10 minutes";
     video_type := "Tutorial";
     target_audience := "Beginners";
     tone := "Casual";
     keywords := "sourdough, bread";
     style_preferences := "";
     channel_info := "";
     competitor_analysis := "";
     max_titles := 3;
     include_analytics := false;
     save_history := true;
     generate_titles := true;
     generate_desc := false;
     generate_tags := false;
     generate_thumb := false |}.

(** The same form with a blank script. *)
Definition blank_form : form :=
  {| video_script := "   ";
     video_length := "5-10 minutes";
     video_type := "Tutorial";
     target_audience := "Beginners";
     tone := "Casual";
     keywords := "sourdough, bread";
     style_preferences := "";
     channel_info := "";
     competitor_analysis := "";
     max_titles := 3;
     include_analytics := true;
     save_history := true;
     generate_titles := true;
     generate_desc := true;
     generate_tags := true;
     generate_thumb := true |}.

(** The session after one click on "Generate Content". *)
Definition after_generate : env :=
  snd (on_generate eight_titles_endpoint three_titles_form
         "2024-05-01T12:00:00" fresh).

(** The text goes on with a tag separator. *)
Definition starts_with_sep (s : string) : bool :=
  match s with
  | EmptyString => false
  | String c _ => is_sep c
  end.


(** The text neither starts nor ends with whitespace. *)
Definition trimmed (t : string) : Prop := lstrip t = t /\ rstrip t = t.

(** A response with a section marker on a line of its own and the tags
    on the next line. *)
Definition marked_response : string :=
  unlines [ "Primary tags:"; "python, tutorial" ].

(** The shape the script gives the session: the titles and the history
    are lists, the tags a dictionary whose "all" entry, if there is one, is
    a list, and the description and the thumbnail text are there. *)
Definition session_ok (s : gmap string pyval) : Prop :=
  (exists l, s !! "titles" = Some (PyList l)) /\
  is_Some (s !! "description") /\
  (exists d, s !! "tags" = Some (PyDict d) /\
             forall v, dict_lookup d "all" = Some v -> exists l, v = PyList l) /\
  is_Some (s !! "thumbnail_concepts") /\
  (exists h, s !! "generation_history" = Some (PyList h)).

(** The number of generation steps the form switches on. *)
Definition enabled_tasks (f : form) : nat :=
  Nat.b2n (generate_titles f) + Nat.b2n (generate_desc f)
  + Nat.b2n (generate_tags f) + Nat.b2n (generate_thumb f).

(** The session keys a run with this form may assign. *)
Definition written_keys (f : form) : list string :=
  (if include_analytics f then ["content_metrics"] else [])
  ++ (if generate_titles f then ["titles"] else [])
  ++ (if generate_desc f then ["description"] else [])
  ++ (if generate_tags f then ["tags"] else [])
  ++ (if generate_thumb f then ["thumbnail_concepts"] else [])
  ++ (if save_history f then ["generation_history"] else []).

(** The history entry of a run, given what the session holds at its end. *)
Definition history_entry (f : form) (now : string) (n_titles : Z)
    (description : pyval) (n_tags : Z) (thumbnails : pyval) : pyval :=
  PyDict [ ("timestamp", PyStr now);
           ("video_type", PyStr (video_type f));
           ("keywords", PyStr (keywords f));
           ("generated_content",
            PyDict [ ("titles", PyInt n_titles);
                     ("description", PyBool (py_truth description));
                     ("tags", PyInt n_tags);
                     ("thumbnails", PyBool (py_truth thumbnails)) ]) ].

(** A form with every step switched on. *)
Definition full_form : form :=
  {| video_script := "How to bake sourdough bread at home";
     video_length := "5-10 minutes";
     video_type := "Tutorial";
     target_audience := "Beginners";
     tone := "Casual";
     keywords := "sourdough, bread";
     style_preferences := "";
     channel_info := "";
     competitor_analysis := "";
     max_titles := 8;
     include_analytics := true;
     save_history := true;
     generate_titles := true;
     generate_desc := true;
     generate_tags := true;
     generate_thumb := true |}.

(** The event is not a call of the endpoint, or it is one with a prompt
    of the list. *)
Definition generate_only (prompts : list string) (ev : event) : Prop :=
  match ev with
  | EvGenerate prompt => In prompt prompts
  | _ => True
  end.

(** The prompts of the steps the form switches on. *)
Definition form_prompts (f : form) : list string :=
  (if generate_titles f
   then [create_title_prompt (video_script f) (video_type f) (target_audience f)
           (keywords f) (tone f) (style_preferences f)]
   else [])
  ++ (if generate_desc f
      then [create_description_prompt (video_script f) (video_type f)
              (target_audience f) (keywords f) (channel_info f) (video_length f)]
      else [])
  ++ (if generate_tags f
      then [create_tags_prompt (video_script f) (video_type f) (keywords f)
              (competitor_analysis f)]
      else [])
  ++ (if generate_thumb f
      then [create_thumbnail_prompt (video_script f) (video_type f)
              (target_audience f)]
      else []).

(** What one generation step leaves behind: at most three more calls, all
    with the prompt of the step, its own key assigned a value with [P] if
    the step is switched on, and every other key as it was. *)
Definition task_post (key prompt : string) (enabled : bool) (P : pyval -> Prop)
    (w w' : env) : Prop :=
  calls w <= calls w' <= calls w + (if enabled then 3 else 0) /\
  (exists evs, log w' = log w ++ evs /\
               if enabled then Forall (generate_only [prompt]) evs else evs = []) /\
  (forall k, k <> key -> session w' !! k = session w !! k) /\
  (if enabled then exists v, session w' !! key = Some v /\ P v
   else session w' !! key = session w !! key).

(** [len(tags.get('all', []))] for a tag dictionary whose "all" entry, if
    any, is a list. *)
Definition tags_count (d : list (string * pyval)) : Z :=
  match dict_lookup d "all" with
  | Some (PyList l) => Z.of_nat (length l)
  | _ => 0%Z
  end.

(** The keys of the session that a run of "Generate Content" can assign. *)
Definition run_keys : list string :=
  [ "content_metrics"; "titles"; "description"; "tags"; "thumbnail_concepts";
    "generation_history" ].

(** An endpoint that fails each call with the same description. *)
Definition failing_endpoint (e : string) : nat -> string -> outcome :=
  fun _ _ => Failure e.


(** [pat] stands somewhere in [s]. *)
Definition stands_in (pat s : string) : Prop :=
  exists before after : string, s = before +:+ pat +:+ after.

(** The separators of a tag list: comma, semicolon and pipe. *)
Definition tag_separator (c : ascii) : Prop :=
  c = ","%char \/ c = ";"%char \/ c = "|"%char.

(** The whitespace characters, by their code points. *)
Definition py_whitespace (c : ascii) : Prop :=
  In (nat_of_ascii c) [9; 10; 11; 12; 13; 28; 29; 30; 31; 32; 133; 160].

(** Nothing but whitespace (or nothing at all). *)
Definition blank (s : string) : Prop :=
  forall c, occurs c s -> py_whitespace c.

(** The text is cut at every maximal run of separators: it is a piece
    without separator, or such a piece, a run of one or more separators and
    a rest that does not go on with a separator and is cut in the same
    way.  A run at either end leaves an empty piece there. *)
Inductive split_at_separators : string -> list string -> Prop :=
| split_last (piece : string) :
    (forall c, occurs c piece -> ~ tag_separator c) ->
    split_at_separators piece [piece]
| split_more (piece seps rest : string) (pieces : list string) :
    (forall c, occurs c piece -> ~ tag_separator c) ->
    seps <> EmptyString ->
    (forall c, occurs c seps -> tag_separator c) ->
    (rest = EmptyString \/ exists c r, rest = String c r /\ ~ tag_separator c) ->
    split_at_separators rest pieces ->
    split_at_separators (piece +:+ seps +:+ rest) (piece :: pieces).

(** [token] is [piece] without the whitespace at its two ends. *)
Definition trimmed_of (piece token : string) : Prop :=
  exists ws1 ws2 : string,
    piece = ws1 +:+ token +:+ ws2 /\ blank ws1 /\ blank ws2 /\
    (forall c r, token = String c r -> ~ py_whitespace c) /\
    (forall c r, token = r +:+ String c EmptyString -> ~ py_whitespace c).

(* ================================================================== *)
(** ** Facts about the text primitives                                 *)
(* ================================================================== *)

Lemma append_cons x (a b : string) : String x a +:+ b = String x (a +:+ b).
Proof. reflexivity. Qed.

Lemma append_empty_l (b : string) : EmptyString +:+ b = b.
Proof. reflexivity. Qed.

Lemma append_assoc (a b c : string) : (a +:+ b) +:+ c = a +:+ (b +:+ c).
Proof.
  induction a as [|x a IH]; [reflexivity|].
  rewrite !append_cons. now f_equal.
Qed.

Lemma prefix_spec pat s :
  String.prefix pat s = true <-> exists rest, s = pat +:+ rest.
Proof.
  revert s. induction pat as [|c pat IH]; intros s.
  - split; [intros _; now exists s | intros _; now destruct s].
  - destruct s as [|b s']; simpl.
    + split; [discriminate | intros [rest H]; discriminate H].
    + destruct (ascii_dec c b) as [->|Hne].
      * rewrite IH. split; intros [rest H]; exists rest.
        -- now rewrite append_cons, <- H.
        -- rewrite append_cons in H. now injection H.
      * split; [discriminate|]. intros [rest H].
        rewrite append_cons in H. injection H as H _. now symmetry in H.
Qed.

Lemma contains_unfold pat s :
  contains pat s =
    if String.prefix pat s then true
    else match s with
         | EmptyString => false
         | String _ s' => contains pat s'
         end.
Proof. destruct s; reflexivity. Qed.

(** [pat in s]: the pattern stands somewhere in the string. *)
Lemma contains_spec pat s :
  contains pat s = true <-> exists before after, s = before +:+ pat +:+ after.
Proof.
  split.
  - induction s as [|c s IH]; rewrite contains_unfold;
      destruct (String.prefix pat _) eqn:E.
    + intros _. apply prefix_spec in E as [rest ->]. now exists EmptyString, rest.
    + discriminate.
    + intros _. apply prefix_spec in E as [rest ->]. now exists EmptyString, rest.
    + intros H. destruct (IH H) as (before & after & ->).
      now exists (String c before), after.
  - intros (before & after & ->). induction before as [|c before IH].
    + rewrite append_empty_l, contains_unfold.
      now rewrite (proj2 (prefix_spec pat (pat +:+ after))) by now exists after.
    + rewrite append_cons, contains_unfold.
      destruct (String.prefix pat _); [reflexivity | exact IH].
Qed.

Lemma contains_head_occurs c pat s :
  contains (String c pat) s = true -> occurs c s.
Proof.
  unfold occurs. induction s as [|b s' IH]; simpl.
  - discriminate.
  - destruct (ascii_dec c b) as [->|Hne].
    + intros _. now left.
    + intros H. right. now apply IH.
Qed.

Lemma lower_char_not_upper x : is_upper (lower_char x) = false.
Proof. destruct x as [[] [] [] [] [] [] [] []]; reflexivity. Qed.

Lemma occurs_lower c s : occurs c (lower s) -> exists x, c = lower_char x.
Proof.
  unfold occurs. induction s as [|b s' IH]; simpl; [tauto|].
  intros [<-|H]; eauto.
Qed.

(** A literal that starts with a capital letter is never found in a
    lower-cased string. *)
Lemma contains_capital_lower c pat s :
  is_upper c = true -> contains (String c pat) (lower s) = false.
Proof.
  intros Hup. destruct (contains (String c pat) (lower s)) eqn:E; [|reflexivity].
  apply contains_head_occurs, occurs_lower in E as [x ->].
  rewrite lower_char_not_upper in Hup. discriminate.
Qed.

Lemma occurs_lstrip c s : occurs c (lstrip s) -> occurs c s.
Proof.
  unfold occurs. induction s as [|b s' IH]; simpl; [tauto|].
  destruct (is_space b); simpl; tauto.
Qed.

Lemma occurs_rstrip c s : occurs c (rstrip s) -> occurs c s.
Proof.
  unfold occurs. induction s as [|b s' IH]; simpl; [tauto|].
  destruct (rstrip s') as [|a r] eqn:E.
  - destruct (is_space b); simpl; tauto.
  - simpl in *. tauto.
Qed.

Lemma occurs_strip c s : occurs c (strip s) -> occurs c s.
Proof. intros H. now apply occurs_lstrip, occurs_rstrip. Qed.

Lemma sep_free_strip s : sep_free s -> sep_free (strip s).
Proof. intros H c Hc. apply H. now apply occurs_strip. Qed.

Lemma sep_free_empty : sep_free EmptyString.
Proof. intros c []. Qed.

Lemma sep_free_cons c s : is_sep c = false -> sep_free s -> sep_free (String c s).
Proof. intros Hc Hs x [<-|Hx]; [exact Hc | now apply Hs]. Qed.

(** The pieces of [re.split] hold no separator. *)
Lemma re_split_seps_sep_free s : Forall sep_free (re_split_seps s).
Proof.
  induction s as [|c s' IH]; simpl.
  - constructor; [apply sep_free_empty | constructor].
  - destruct (is_sep c) eqn:Hc.
    + destruct s' as [|d s'']; [constructor; [apply sep_free_empty | exact IH]|].
      destruct (is_sep d); [exact IH|].
      constructor; [apply sep_free_empty | exact IH].
    + destruct (re_split_seps s') as [|piece rest].
      * constructor; [|constructor].
        apply sep_free_cons; [exact Hc | apply sep_free_empty].
      * inversion IH; subst. constructor; [|assumption].
        now apply sep_free_cons.
Qed.

Lemma filter_map_swap {A B} (f : A -> B) (p : B -> bool) l :
  List.filter p (map f l) = map f (List.filter (fun x => p (f x)) l).
Proof.
  induction l as [|x l IH]; simpl; [reflexivity|].
  destruct (p (f x)); simpl; now rewrite IH.
Qed.

Lemma Forall_firstn {A} (P : A -> Prop) n l : Forall P l -> Forall P (firstn n l).
Proof.
  intros H. revert n. induction H as [|x l Hx Hl IH]; intros [|n]; simpl;
    constructor; auto.
Qed.

(** *** Trimming and splitting, piece by piece *)






Lemma rstrip_fixed_tail c s :
  rstrip (String c s) = String c s -> rstrip s = s.
Proof.
  simpl. destruct (rstrip s) as [|d r] eqn:E.
  - destruct (is_space c); [discriminate|]. now intros [= <-].
  - now intros [= <-].
Qed.



Lemma lstrip_split s :
  exists ws, s = ws +:+ lstrip s /\ all_space ws = true.
Proof.
  induction s as [|c s (ws & Hs & Hws)].
  - now exists EmptyString.
  - simpl. destruct (is_space c) eqn:Hc.
    + exists (String c ws). rewrite append_cons, <- Hs. simpl.
      now rewrite Hc, Hws.
    + now exists EmptyString.
Qed.

Lemma rstrip_split s :
  exists ws, s = rstrip s +:+ ws /\ all_space ws = true.
Proof.
  induction s as [|c s (ws & Hs & Hws)].
  - now exists EmptyString.
  - simpl. destruct (rstrip s) as [|d r] eqn:E.
    + rewrite append_empty_l in Hs. subst ws.
      destruct (is_space c) eqn:Hc.
      * exists (String c s). rewrite append_empty_l. simpl.
        now rewrite Hc, Hws.
      * exists s. now rewrite append_cons, append_empty_l.
    + exists ws. now rewrite append_cons, <- Hs.
Qed.

Lemma rstrip_idem s : rstrip (rstrip s) = rstrip s.
Proof.
  induction s as [|c s IH]; [reflexivity|].
  simpl. destruct (rstrip s) as [|d r] eqn:E.
  - destruct (is_space c) eqn:Hc; [reflexivity|]. simpl. now rewrite Hc.
  - change (rstrip (String c (String d r)))
      with (match rstrip (String d r) with
            | EmptyString => if is_space c then EmptyString else String c EmptyString
            | String a r' => String c (String a r')
            end).
    now rewrite IH.
Qed.

(** The end of a text that does not end in whitespace does not either. *)
Lemma rstrip_fixed_suffix a b :
  b <> EmptyString -> rstrip (a +:+ b) = a +:+ b -> rstrip b = b.
Proof.
  intros Hne. induction a as [|c a IH].
  - now rewrite append_empty_l.
  - rewrite append_cons. intros H. apply IH. now apply rstrip_fixed_tail in H.
Qed.

Lemma lstrip_idem s : lstrip (lstrip s) = lstrip s.
Proof.
  induction s as [|c s IH]; [reflexivity|].
  simpl. destruct (is_space c) eqn:Hc; [exact IH|].
  simpl. now rewrite Hc.
Qed.










Lemma strip_parenthetical_cut s :
  paren_tail s = true -> strip_parenthetical s = EmptyString.
Proof.
  intros H. destruct s as [|c s]; [reflexivity|].
  cbn [strip_parenthetical]. now rewrite H.
Qed.

Lemma strip_parenthetical_keep c s :
  paren_tail (String c s) = false ->
  strip_parenthetical (String c s) = String c (strip_parenthetical s).
Proof. intros H. cbn [strip_parenthetical]. now rewrite H. Qed.


Lemma skip_to_close_occurs r e r' :
  skip_to_close r = String e r' -> occurs ")" r.
Proof.
  induction r as [|y r IH]; simpl; [discriminate|].
  destruct (Ascii.eqb y ")") eqn:Ey.
  - apply Ascii.eqb_eq in Ey as ->. intros _. now left.
  - intros H. right. now apply IH.
Qed.

(** A title without closing parenthesis is left as it is. *)
Lemma strip_parenthetical_plain (title : string) :
  ~ occurs ")" title -> strip_parenthetical title = title.
Proof.
  induction title as [|c title IH]; intros Hno; [reflexivity|].
  rewrite strip_parenthetical_keep.
  - f_equal. apply IH. intros H. apply Hno. now right.
  - unfold paren_tail.
    destruct (lstrip (String c title)) as [|d r] eqn:E; [reflexivity|].
    assert (Hsub : forall x, occurs x r -> occurs x (String c title)).
    { intros x Hx. apply occurs_lstrip. rewrite E. now right. }
    destruct (skip_to_close r) as [|e r'] eqn:Er.
    + destruct d as [[] [] [] [] [] [] [] []]; reflexivity.
    + exfalso. apply Hno, Hsub. now apply skip_to_close_occurs in Er.
Qed.

(** [re.split]: a separator-free piece, a run of separators, and a rest
    that does not go on with a separator. *)
Lemma re_split_seps_sep_free_piece a :
  sep_free a -> re_split_seps a = [a].
Proof.
  induction a as [|c a IH]; intros Hfree; simpl; [reflexivity|].
  rewrite (Hfree c) by (now left).
  rewrite IH; [reflexivity|]. intros x Hx. apply Hfree. now right.
Qed.

Lemma re_split_seps_run a seps b :
  sep_free a -> seps <> EmptyString ->
  (forall c, occurs c seps -> is_sep c = true) ->
  starts_with_sep b = false ->
  re_split_seps (a +:+ seps +:+ b) = a :: re_split_seps b.
Proof.
  intros Hfree Hne Hseps Hb. induction a as [|c a IH].
  - rewrite append_empty_l. clear Hfree.
    induction seps as [|s seps IHs]; [contradiction|].
    rewrite append_cons. simpl. rewrite (Hseps s) by (now left).
    destruct seps as [|s' seps].
    + rewrite append_empty_l. destruct b as [|d b]; [reflexivity|].
      simpl in Hb. now rewrite Hb.
    + rewrite append_cons, (Hseps s') by (right; now left).
      rewrite <- append_cons.
      apply IHs; [discriminate|].
      intros x Hx. apply Hseps. now right.
  - rewrite append_cons. simpl. rewrite (Hfree c) by (now left).
    rewrite IH; [reflexivity|]. intros x Hx. apply Hfree. now right.
Qed.

(** The words of [str.split()] are not empty and hold no whitespace. *)
Lemma split_ws_words s :
  Forall (fun w => w <> EmptyString /\ forall c, occurs c w -> is_space c = false)
         (split_ws s).
Proof.
  induction s as [|c s IH]; simpl; [constructor|].
  destruct (is_space c) eqn:Hc; [exact IH|].
  assert (Hone : String c EmptyString <> EmptyString /\
                 forall x, occurs x (String c EmptyString) -> is_space x = false).
  { split; [discriminate|]. intros x [<-|[]]. exact Hc. }
  destruct s as [|d s']; [constructor; [exact Hone | constructor]|].
  destruct (is_space d) eqn:Hd; [constructor; [exact Hone | exact IH]|].
  destruct (split_ws (String d s')) as [|word rest];
    [constructor; [exact Hone | constructor]|].
  inversion IH as [|? ? [Hne Hfree] Hrest]; subst.
  constructor; [|exact Hrest].
  split; [discriminate|]. intros x [<-|Hx]; [exact Hc | now apply Hfree].
Qed.

(** [str.split()]: whitespace, a word, and a rest that does not go on with
    the word. *)
Lemma split_ws_word ws word rest :
  all_space ws = true -> word <> EmptyString ->
  (forall c, occurs c word -> is_space c = false) ->
  lstrip rest <> rest \/ rest = EmptyString ->
  split_ws (ws +:+ word +:+ rest) = word :: split_ws rest.
Proof.
  intros Hws Hne Hfree Hrest. induction ws as [|c ws IH].
  - rewrite append_empty_l. clear Hws.
    induction word as [|c word IHw]; [contradiction|].
    rewrite append_cons. simpl. rewrite (Hfree c) by (now left).
    destruct word as [|d word].
    + rewrite append_empty_l. destruct rest as [|r rest]; [reflexivity|].
      destruct (is_space r) eqn:Hr; [reflexivity|].
      exfalso. destruct Hrest as [Hrest|Hrest]; [|discriminate].
      apply Hrest. simpl. now rewrite Hr.
    + rewrite append_cons, (Hfree d) by (right; now left).
      rewrite <- append_cons, IHw; [reflexivity | discriminate |].
      intros x Hx. apply Hfree. now right.
  - rewrite append_cons. simpl.
    apply andb_true_iff in Hws as [-> Hws]. now apply IH.
Qed.

(* ================================================================== *)
(** ** extract_tags                                                    *)
(* ================================================================== *)

(** With no section chosen yet, a line leaves the loop variables as they
    are: none of the three marker tests can succeed on [line.lower()]. *)
Lemma scan_line_idle st line :
  current_section st = None -> scan_line st line = st.
Proof.
  intros Hnone. unfold scan_line.
  rewrite !contains_capital_lower by reflexivity.
  now rewrite Hnone.
Qed.

Lemma scan_idle lines st :
  current_section st = None -> fold_left scan_line lines st = st.
Proof.
  revert st. induction lines as [|line lines IH]; intros st Hnone; simpl.
  - reflexivity.
  - rewrite scan_line_idle by exact Hnone. now apply IH.
Qed.

Lemma extract_tags_labeled response :
  labeled response = true -> extract_tags response = no_tags.
Proof.
  unfold labeled, extract_tags. intros ->.
  now rewrite scan_idle.
Qed.

Lemma extract_tags_unlabeled response :
  labeled response = false ->
  extract_tags response =
    [ ("all", firstn 20 (map strip (List.filter fallback_keeps (re_split_seps response)))) ].
Proof. unfold labeled, extract_tags. now intros ->. Qed.

(* ------------------------------------------------------------------ *)
(** *** C1 *)

(** C1 at the failing inputs: on the example of the spec the result is
    the four empty lists, not the lists the spec names; the same holds
    with the tags on the line after the marker; and whatever the lines,
    the scan, started as [extract_tags] starts it, assigns no token to any
    list, since no line ever selects a section. *)
Theorem extract_tags_labeled_lists_empty :
  extract_tags labeled_example = no_tags /\
  extract_tags labeled_example <>
    [ ("primary", ["a"; "b"]); ("secondary", ["c"]); ("trending", ["d"; "e"]);
      ("all", ["a"; "b"; "c"; "d"; "e"]) ] /\
  extract_tags marked_response = no_tags /\
  (forall lines, fold_left scan_line lines scan_init = scan_init).
Proof.
  split; [reflexivity|]. split; [vm_compute; discriminate|].
  split; [reflexivity|]. intros lines. now apply scan_idle.
Qed.

(* ------------------------------------------------------------------ *)
(** *** C10 *)


(* ------------------------------------------------------------------ *)
(** *** The fallback filter at its boundary *)

(** The boundary of the fallback filter on the spec's example: the
    two-letter tokens go, the three-letter token stays. *)
Example extract_tags_flat_example :
  extract_tags flat_example = [("all", ["validtagname"; "abc"])].
Proof. reflexivity. Qed.

(* ================================================================== *)
(** ** extract_titles                                                  *)
(* ================================================================== *)

Lemma titles_step_numbered titles line :
  titles_step titles line =
    titles ++ (if numbered_line line then [line_title line] else []).
Proof.
  unfold titles_step, numbered_line, line_title.
  destruct (re_match_numbered (strip line)); [reflexivity|].
  now rewrite app_nil_r.
Qed.

(** The loop collects the titles of the numbered lines, in order. *)
Lemma titles_loop lines titles :
  fold_left titles_step lines titles =
    titles ++ map line_title (List.filter numbered_line lines).
Proof.
  revert titles. induction lines as [|line lines IH]; intros titles; simpl.
  - now rewrite app_nil_r.
  - rewrite IH, titles_step_numbered.
    destruct (numbered_line line); simpl.
    + now rewrite <- app_assoc.
    + now rewrite app_nil_r.
Qed.

Lemma extract_titles_numbered response :
  extract_titles response =
    map line_title (firstn 8 (List.filter numbered_line (split_on LF response))).
Proof.
  unfold extract_titles. rewrite titles_loop. simpl.
  apply firstn_map.
Qed.

Lemma extract_titles_at_most_eight response :
  length (extract_titles response) <= 8.
Proof. unfold extract_titles. apply firstn_le_length. Qed.

(* ------------------------------------------------------------------ *)
(** *** C5 *)



Example extract_titles_ten :
  extract_titles ten_titles =
    ["One"; "Two"; "Three"; "Four"; "Five"; "Six"; "Seven"; "Eight"].
Proof. reflexivity. Qed.

(* ================================================================== *)
(** ** analyze_content_metrics                                         *)
(* ================================================================== *)



















Section Ranking.

(** The lower-cased words of the content. *)
Variable words : list string.






End Ranking.

(* ------------------------------------------------------------------ *)
(** *** C8 *)


Example analyze_content_metrics_example :
  analyze_content_metrics metrics_example =
    Metrics 14 70 1
      [ ("quick", 3%Z); ("this", 3%Z); ("brown", 1%Z); ("foxes", 1%Z);
        ("jump", 1%Z); ("over", 1%Z); ("lazy", 1%Z); ("dogs", 1%Z) ].
Proof. reflexivity. Qed.


(* ================================================================== *)
(** ** Generation client                                               *)
(* ================================================================== *)

Lemma failure_text_prefix max_retries e :
  String.prefix "Error:" (failure_text max_retries e) = true.
Proof. reflexivity. Qed.

(** The loop over the attempts [start .. start + k - 1] when each of them
    fails; [errors i] is the description of the failure of attempt [i]. *)
Lemma retry_loop_all_fail endpoint prompt (max_retries : Z) (errors : nat -> string) :
  forall (k start : nat) (w : env),
    Z.of_nat (start + S k) = max_retries ->
    (forall i, i <= k -> endpoint (calls w + i) prompt = Failure (errors (start + i))) ->
    retry_loop endpoint prompt max_retries (map Z.of_nat (seq start (S k))) w =
      (Val (PyStr (failure_text max_retries (errors (start + k)))),
       Env (session w) (calls w + S k) (log w ++ failed_attempts prompt (S k))).
Proof.
  induction k as [|k IH]; intros start w Hmax Hfail;
    pose proof (Hfail 0 (Nat.le_0_l _)) as Hfirst;
    rewrite !Nat.add_0_r in Hfirst.
  - cbn [seq map retry_loop]. unfold try_except, bind, generate_content.
    rewrite Hfirst.
    replace (Z.of_nat start =? max_retries - 1)%Z with true
      by (symmetry; apply Z.eqb_eq; lia).
    unfold ret. rewrite Nat.add_0_r, Nat.add_1_r. reflexivity.
  - change (seq start (S (S k))) with (start :: seq (S start) (S k)).
    cbn [map retry_loop]. unfold try_except at 1, bind at 1, generate_content at 1.
    rewrite Hfirst.
    replace (Z.of_nat start =? max_retries - 1)%Z with false
      by (symmetry; apply Z.eqb_neq; lia).
    unfold bind at 1, emit at 1.
    rewrite IH.
    + cbn [session calls log].
      replace (S start + k) with (start + S k) by lia.
      replace (S (calls w) + S k) with (calls w + S (S k)) by lia.
      rewrite <- !app_assoc. reflexivity.
    + lia.
    + intros i Hi. cbn [calls].
      replace (S (calls w) + i) with (calls w + S i) by lia.
      replace (S start + i) with (start + S i) by lia.
      apply Hfail. lia.
Qed.

(* ------------------------------------------------------------------ *)
(** *** C4 *)

(** With no attempt to make, the client returns [None], not a text that
    starts with "Error:". *)
Lemma call_gemini_zero_retries_no_text :
  ~ exists text : string,
      fst (call_gemini_with_retry dead_endpoint "prompt" 0 fresh) = Val (PyStr text) /\
      String.prefix "Error:" text = true.
Proof. intros (text & H & _). vm_compute in H. discriminate. Qed.

(** C4, as the code has it: for a retry count of at least 1, when every
    attempt fails the client does not raise; it calls the endpoint exactly
    [max_retries] times with a pause of one second between two attempts and
    returns the text that starts with "Error:" and holds the retry count and
    the description of the last failure. *)
Theorem call_gemini_all_fail endpoint prompt (max_retries : Z)
    (errors : nat -> string) (w : env) :
  (1 <= max_retries)%Z ->
  (forall i, i < Z.to_nat max_retries ->
             endpoint (calls w + i) prompt = Failure (errors i)) ->
  let n := Z.to_nat max_retries in
  let text := failure_text max_retries (errors (n - 1)) in
  call_gemini_with_retry endpoint prompt max_retries w =
    (Val (PyStr text),
     Env (session w) (calls w + n) (log w ++ failed_attempts prompt n)) /\
  String.prefix "Error:" text = true /\
  text = "Error: Unable to generate content after " +:+ str_of_int max_retries
         +:+ " attempts. " +:+ errors (n - 1).
Proof.
  intros Hpos Hfail n text.
  split; [|split; [apply failure_text_prefix | reflexivity]].
  unfold call_gemini_with_retry, py_range. fold n.
  destruct n as [|k] eqn:Hn; [lia|].
  rewrite (retry_loop_all_fail endpoint prompt max_retries errors k 0 w).
  - subst text. simpl. now rewrite Nat.sub_0_r.
  - simpl. lia.
  - intros i Hi. simpl. apply Hfail. lia.
Qed.

Lemma call_gemini_all_fail_witness :
  call_gemini_with_retry dead_endpoint "prompt" 3 fresh =
    (Val (PyStr "Error: Unable to generate content after 3 attempts. 503 service unavailable"),
     Env (session fresh) (calls fresh + 3)
         (log fresh ++ [ EvGenerate "prompt"; EvSleep 1000; EvGenerate "prompt";
                         EvSleep 1000; EvGenerate "prompt" ])).
Proof.
  apply (call_gemini_all_fail dead_endpoint "prompt" 3
           (fun _ => "503 service unavailable") fresh).
  - lia.
  - intros i _. reflexivity.
Defined.

(* ------------------------------------------------------------------ *)
(** *** C9 *)

(** C9: with a retry count of 0 or less the client returns [None] and
    leaves the endpoint alone: nothing is called and nothing is logged. *)
Theorem call_gemini_no_retries endpoint prompt (max_retries : Z) (w : env) :
  (max_retries <= 0)%Z ->
  call_gemini_with_retry endpoint prompt max_retries w = (Val PyNone, w).
Proof.
  intros Hle. unfold call_gemini_with_retry, py_range.
  replace (Z.to_nat max_retries) with 0 by lia. reflexivity.
Qed.

Lemma call_gemini_no_retries_witness :
  call_gemini_with_retry dead_endpoint "prompt" 0 fresh = (Val PyNone, fresh).
Proof. apply call_gemini_no_retries. lia. Defined.

(* ================================================================== *)
(** ** The button handlers                                             *)
(* ================================================================== *)

Lemma lstrip_all_space s : all_space s = true -> lstrip s = EmptyString.
Proof.
  induction s as [|c s IH]; simpl; [reflexivity|].
  intros H. apply andb_true_iff in H as [-> Hs]. now apply IH.
Qed.

Lemma strip_all_space s : all_space s = true -> strip s = EmptyString.
Proof. intros H. unfold strip. now rewrite lstrip_all_space. Qed.

(* ------------------------------------------------------------------ *)
(** *** C7 *)

(** C7: a click on "Generate Content" with an empty or whitespace-only
    script only reports the validation error: the session is left as it
    was and the endpoint is not called. *)
Theorem generate_rejects_blank endpoint (f : form) (now : string) (w : env) :
  all_space (video_script f) = true ->
  on_generate endpoint f now w =
    (Val tt,
     Env (session w) (calls w)
         (log w ++ [EvError "Please provide the video script or summary."])).
Proof.
  intros Hblank. unfold on_generate.
  now rewrite (strip_all_space _ Hblank).
Qed.

Lemma generate_rejects_blank_witness :
  on_generate eight_titles_endpoint blank_form "2024-05-01T12:00:00" after_generate =
    (Val tt,
     Env (session after_generate) (calls after_generate)
         (log after_generate ++ [EvError "Please provide the video script or summary."])).
Proof. apply generate_rejects_blank. reflexivity. Defined.

(* ------------------------------------------------------------------ *)
(** *** C2 *)

(** The handler never reads the [max_titles] slider. *)
Lemma on_generate_max_titles endpoint (f : form) (n : Z) (now : string) :
  on_generate endpoint f now =
  on_generate endpoint
    {| video_script := video_script f; video_length := video_length f;
       video_type := video_type f; target_audience := target_audience f;
       tone := tone f; keywords := keywords f;
       style_preferences := style_preferences f; channel_info := channel_info f;
       competitor_analysis := competitor_analysis f; max_titles := n;
       include_analytics := include_analytics f; save_history := save_history f;
       generate_titles := generate_titles f; generate_desc := generate_desc f;
       generate_tags := generate_tags f; generate_thumb := generate_thumb f |}
    now.
Proof. reflexivity. Qed.

(** C2 at the failing input: with the slider at 3 and an answer of eight
    numbered titles, the run stores eight titles. *)
Theorem generate_ignores_max_titles :
  slider_ok three_titles_form /\
  max_titles three_titles_form = 3%Z /\
  session after_generate !! "titles" =
    Some (py_strs ["A"; "B"; "C"; "D"; "E"; "F"; "G"; "H"]).
Proof.
  split; [unfold slider_ok; simpl; lia|].
  split; reflexivity.
Qed.

(* ------------------------------------------------------------------ *)
(** *** C3 *)

(** After a run that saved a history entry, "Clear All Results" leaves the
    history as it is: not every field goes back to its default. *)
Lemma clear_keeps_history :
  dict_lookup defaults "generation_history" = Some (PyList []) /\
  session (snd (on_clear after_generate)) !! "generation_history" <> Some (PyList []).
Proof. split; [reflexivity|]. vm_compute. discriminate. Qed.

Lemma on_clear_session (w : env) :
  on_clear w =
    (Val tt,
     Env (<["selected_title" := PyStr ""]>
          (<["content_metrics" := PyDict []]>
           (<["thumbnail_concepts" := PyStr ""]>
            (<["tags" := PyDict []]>
             (<["description" := PyStr ""]>
              (<["titles" := PyList []]> (session w)))))))
         (calls w) (log w)).
Proof. reflexivity. Qed.

(** C3, as the code has it: "Clear All Results" sets titles to the empty
    list, tags and content metrics to the empty dictionary, and the
    description, the thumbnail text and the selected title to the empty
    string, whatever they held, which are their defaults; every other key
    of the session, so the generation history, the custom tags and the
    export data, keeps its value. *)
Theorem on_clear_resets (w : env) :
  let w' := snd (on_clear w) in
  fst (on_clear w) = Val tt /\
  session w' !! "titles" = Some (PyList []) /\
  session w' !! "tags" = Some (PyDict []) /\
  session w' !! "content_metrics" = Some (PyDict []) /\
  session w' !! "description" = Some (PyStr "") /\
  session w' !! "thumbnail_concepts" = Some (PyStr "") /\
  session w' !! "selected_title" = Some (PyStr "") /\
  (forall key, In key clear_keys ->
               session w' !! key = dict_lookup defaults key) /\
  (forall key, ~ In key clear_keys -> session w' !! key = session w !! key) /\
  calls w' = calls w /\ log w' = log w.
Proof.
  intros w'. subst w'. rewrite on_clear_session. cbn [fst snd session calls log].
  repeat split; try (simplify_map_eq; reflexivity).
  - intros key Hin. simpl in Hin.
    repeat destruct Hin as [<-|Hin]; try (simplify_map_eq; reflexivity).
    destruct Hin.
  - intros key Hnot. simpl in Hnot.
    rewrite !lookup_insert_ne by (intros <-; tauto). reflexivity.
Qed.

Lemma on_clear_resets_witness :
  session (snd (on_clear after_generate)) !! "custom_tags" =
  session after_generate !! "custom_tags".
Proof.
  destruct (on_clear_resets after_generate)
    as (_ & _ & _ & _ & _ & _ & _ & _ & Hkeep & _).
  apply Hkeep. simpl. intros [H|[H|[H|[H|[H|[H|[]]]]]]]; discriminate H.
Defined.

(* ================================================================== *)
(** ** Further properties of the response parser                       *)
(* ================================================================== *)

Lemma length_lstrip s : String.length (lstrip s) <= String.length s.
Proof.
  induction s as [|c s IH]; simpl; [lia|].
  destruct (is_space c); simpl; lia.
Qed.

Lemma lstrip_fixed_head c s :
  lstrip (String c s) = String c s -> is_space c = false.
Proof.
  simpl. destruct (is_space c); [|reflexivity].
  intros H. pose proof (length_lstrip s) as Hlen.
  rewrite H in Hlen. simpl in Hlen. lia.
Qed.

Lemma lstrip_head c s : is_space c = false -> lstrip (String c s) = String c s.
Proof. intros H. simpl. now rewrite H. Qed.

Lemma lstrip_rstrip_fixed t : lstrip t = t -> lstrip (rstrip t) = rstrip t.
Proof.
  destruct t as [|c t']; [reflexivity|].
  intros H. apply lstrip_fixed_head in H.
  simpl rstrip. destruct (rstrip t'); [rewrite H|]; now apply lstrip_head.
Qed.

(** [strip] gives a trimmed text. *)
Lemma strip_trimmed s : trimmed (strip s).
Proof.
  unfold trimmed, strip. split.
  - apply lstrip_rstrip_fixed, lstrip_idem.
  - apply rstrip_idem.
Qed.

Lemma strip_of_trimmed t : trimmed t -> strip t = t.
Proof. intros [Hl Hr]. unfold strip. now rewrite Hl, Hr. Qed.

Lemma paren_tail_space c s :
  is_space c = true -> paren_tail (String c s) = paren_tail s.
Proof. intros H. unfold paren_tail. simpl. now rewrite H. Qed.

Lemma strip_parenthetical_empty_inv s :
  strip_parenthetical s = EmptyString -> s = EmptyString \/ paren_tail s = true.
Proof.
  destruct s as [|c s]; [now left|].
  cbn [strip_parenthetical]. destruct (paren_tail (String c s)); [now right|].
  discriminate.
Qed.

Lemma strip_parenthetical_rstrip t :
  rstrip t = t -> rstrip (strip_parenthetical t) = strip_parenthetical t.
Proof.
  induction t as [|c t IH]; intros Hr; [reflexivity|].
  destruct (paren_tail (String c t)) eqn:Hp.
  - now rewrite strip_parenthetical_cut.
  - rewrite strip_parenthetical_keep by assumption.
    pose proof (rstrip_fixed_tail _ _ Hr) as Ht. specialize (IH Ht).
    simpl rstrip. rewrite IH.
    destruct (strip_parenthetical t) as [|d r] eqn:E; [|reflexivity].
    destruct (is_space c) eqn:Hc; [|reflexivity].
    exfalso. apply strip_parenthetical_empty_inv in E as [->|E].
    + simpl in Hr. rewrite Hc in Hr. discriminate.
    + rewrite paren_tail_space, E in Hp by assumption. discriminate.
Qed.

Lemma strip_parenthetical_lstrip t :
  lstrip t = t -> lstrip (strip_parenthetical t) = strip_parenthetical t.
Proof.
  destruct t as [|c t]; [reflexivity|].
  intros H. apply lstrip_fixed_head in H.
  destruct (paren_tail (String c t)) eqn:Hp.
  - now rewrite strip_parenthetical_cut.
  - rewrite strip_parenthetical_keep by assumption. now apply lstrip_head.
Qed.

Lemma line_title_trimmed line : trimmed (line_title line).
Proof.
  unfold line_title. destruct (re_match_numbered (strip line)) as [g|].
  - destruct (strip_trimmed g) as [Hl Hr]. split.
    + now apply strip_parenthetical_lstrip.
    + now apply strip_parenthetical_rstrip.
  - now split.
Qed.

(** Every title that [extract_titles] returns is trimmed: it neither
    starts nor ends with whitespace, also after the parenthetical is cut. *)
Theorem extract_titles_trimmed (response : string) :
  Forall trimmed (extract_titles response).
Proof.
  rewrite extract_titles_numbered. apply List.Forall_forall.
  intros title Hin. apply in_map_iff in Hin as [line [<- _]].
  apply line_title_trimmed.
Qed.


(** The number of titles is the number of numbered lines, cut at eight;
    there is no title exactly when no line is numbered. *)
Theorem extract_titles_count (response : string) :
  let numbered := List.filter numbered_line (split_on LF response) in
  length (extract_titles response) = Nat.min 8 (length numbered) /\
  (extract_titles response = [] <-> numbered = []).
Proof.
  intros numbered. rewrite extract_titles_numbered. fold numbered.
  rewrite length_map, length_firstn. split; [reflexivity|].
  destruct numbered as [|line rest]; simpl; split; congruence.
Qed.

Lemma split_on_absent sep s :
  ~ occurs sep s -> split_on sep s = [s].
Proof.
  induction s as [|c s IH]; intros Hno; [reflexivity|].
  simpl. destruct (Ascii.eqb c sep) eqn:E.
  - apply Ascii.eqb_eq in E as ->. exfalso. apply Hno. now left.
  - rewrite IH; [reflexivity|]. intros H. apply Hno. now right.
Qed.

Lemma string_of_uint_digits d c :
  occurs c (NilEmpty.string_of_uint d) -> is_digit c = true.
Proof.
  unfold occurs. induction d; simpl; try tauto;
    intros [<-|H]; auto.
Qed.

(** [str(n)] is written with digits and the minus sign. *)
Lemma str_of_int_chars n c :
  occurs c (str_of_int n) -> is_digit c = true \/ c = "-"%char.
Proof.
  unfold str_of_int, NilZero.string_of_int, NilZero.string_of_uint.
  destruct (Z.to_int n) as [d|d].
  - destruct d; try (intros H; left; revert H; apply string_of_uint_digits).
    intros [<-|[]]. now left.
  - intros [<-|H]; [now right|]. left.
    destruct d; try (revert H; apply string_of_uint_digits).
    destruct H as [<-|[]]. reflexivity.
Qed.

Lemma occurs_append c a b : occurs c (a +:+ b) <-> occurs c a \/ occurs c b.
Proof.
  unfold occurs. induction a as [|x a IH].
  - rewrite append_empty_l. simpl. tauto.
  - rewrite append_cons. simpl. rewrite IH. tauto.
Qed.

Lemma failure_text_one_line max_retries e :
  ~ occurs LF e -> ~ occurs LF (failure_text max_retries e).
Proof.
  intros He. unfold failure_text. rewrite !occurs_append.
  intros [H|[H|[H|H]]].
  - unfold occurs in H. simpl in H.
    repeat (destruct H as [H|H]; [discriminate H|]). exact H.
  - apply str_of_int_chars in H as [H|H]; discriminate H.
  - unfold occurs in H. simpl in H.
    repeat (destruct H as [H|H]; [discriminate H|]). exact H.
  - now apply He.
Qed.

(** A line whose first character is neither whitespace nor a digit is not
    a numbered line. *)
Lemma numbered_line_head c s :
  is_space c = false -> is_digit c = false -> numbered_line (String c s) = false.
Proof.
  intros Hs Hd. unfold numbered_line, strip.
  rewrite lstrip_head by assumption. simpl rstrip.
  destruct (rstrip s); [rewrite Hs|]; simpl; now rewrite Hd.
Qed.

Lemma failure_text_no_titles max_retries e :
  ~ occurs LF e -> extract_titles (failure_text max_retries e) = [].
Proof.
  intros He. rewrite extract_titles_numbered.
  rewrite split_on_absent by now apply failure_text_one_line.
  simpl List.filter. change (failure_text max_retries e)
    with (String "E" ("rror: Unable to generate content after "
                      +:+ str_of_int max_retries +:+ " attempts. " +:+ e)).
  now rewrite numbered_line_head.
Qed.

(** The text the client returns when it gives up holds no numbered line,
    so [extract_titles] makes an empty title list of it (for an error
    description without line feed). *)
Theorem extract_titles_failure_text (max_retries : Z) (e : string) :
  ~ occurs LF e -> extract_titles (failure_text max_retries e) = [].
Proof. apply failure_text_no_titles. Qed.

Lemma extract_titles_failure_text_witness :
  extract_titles (failure_text 3 "503 service unavailable") = [].
Proof.
  apply extract_titles_failure_text.
  unfold occurs. simpl. intros H.
  repeat (destruct H as [H|H]; [discriminate H|]). exact H.
Defined.

(* ------------------------------------------------------------------ *)

(** A response in which "Primary tags:" or "Secondary tags:" stands
    somewhere gets the four keys, and every list under them is empty,
    whatever else the response holds: the scan never selects a section. *)
Theorem extract_tags_marked_empty (response : string) :
  (exists before after, response = before +:+ "Primary tags:" +:+ after) \/
  (exists before after, response = before +:+ "Secondary tags:" +:+ after) ->
  map fst (extract_tags response) = ["primary"; "secondary"; "trending"; "all"] /\
  forall key tags, In (key, tags) (extract_tags response) -> tags = [].
Proof.
  intros H. assert (Hlab : labeled response = true).
  { unfold labeled. apply orb_true_iff.
    destruct H as [H|H]; [left | right]; now apply contains_spec. }
  rewrite (extract_tags_labeled _ Hlab). split; [reflexivity|].
  intros key tags Hin. simpl in Hin.
  repeat (destruct Hin as [[= _ <-]|Hin]; [reflexivity|]). destruct Hin.
Qed.

Lemma extract_tags_marked_empty_witness :
  map fst (extract_tags marked_response) = ["primary"; "secondary"; "trending"; "all"] /\
  forall key tags, In (key, tags) (extract_tags marked_response) -> tags = [].
Proof.
  apply extract_tags_marked_empty. left.
  exists EmptyString, (String LF "python, tutorial"). reflexivity.
Defined.

(** Whatever the response, the result of [extract_tags] has the key
    "all", no list of it has more than 20 tags, and every tag in it is
    trimmed, not empty and free of separators. *)
Theorem extract_tags_well_formed (response : string) :
  (exists all_tags, dict_lookup (extract_tags response) "all" = Some all_tags) /\
  forall key tags,
    In (key, tags) (extract_tags response) ->
    length tags <= 20 /\
    Forall (fun t => trimmed t /\ t <> EmptyString /\ sep_free t) tags.
Proof.
  destruct (labeled response) eqn:Hlab.
  - rewrite (extract_tags_labeled _ Hlab). split; [now exists []|].
    intros key tags Hin. simpl in Hin.
    repeat (destruct Hin as [[= _ <-]|Hin]; [split; [simpl; lia | constructor]|]).
    destruct Hin.
  - rewrite (extract_tags_unlabeled _ Hlab). split; [eexists; reflexivity|].
    intros key tags [[= _ <-]|[]]. split; [apply firstn_le_length|].
    apply Forall_firstn, List.Forall_forall. intros t Ht.
    apply in_map_iff in Ht as [piece [<- Hpiece]].
    apply filter_In in Hpiece as [Hin Hkeep].
    apply andb_true_iff in Hkeep as [Hlo _]. apply Z.ltb_lt in Hlo.
    split; [apply strip_trimmed|]. split.
    + intros E. rewrite E in Hlo. unfold len in Hlo. simpl in Hlo. lia.
    + apply sep_free_strip.
      pose proof (re_split_seps_sep_free response) as Hall.
      rewrite List.Forall_forall in Hall. now apply Hall.
Qed.

(* ================================================================== *)
(** ** Further properties of the content analyzer                      *)
(* ================================================================== *)

Lemma is_space_lower_char c : is_space (lower_char c) = is_space c.
Proof. destruct c as [[] [] [] [] [] [] [] []]; reflexivity. Qed.



(** Lower-casing and splitting into words commute. *)
Lemma split_ws_lower s : split_ws (lower s) = map lower (split_ws s).
Proof.
  induction s as [|c s IH]; [reflexivity|].
  cbn [lower]. cbn [split_ws]. rewrite is_space_lower_char.
  destruct (is_space c); [exact IH|].
  destruct s as [|d s']; [reflexivity|].
  cbn [lower] in *. rewrite is_space_lower_char.
  destruct (is_space d).
  - simpl map. f_equal. exact IH.
  - rewrite IH. destruct (split_ws (String d s')); reflexivity.
Qed.

Lemma split_ws_blank s : split_ws s = [] <-> all_space s = true.
Proof.
  induction s as [|c s IH]; [now split|].
  cbn [split_ws all_space]. destruct (is_space c); simpl.
  - exact IH.
  - split; [|discriminate].
    destruct s as [|d s']; [discriminate|].
    destruct (is_space d); [discriminate|].
    destruct (split_ws (String d s')); discriminate.
Qed.

Lemma all_space_lower s : all_space (lower s) = all_space s.
Proof.
  induction s as [|c s IH]; simpl; [reflexivity|].
  now rewrite is_space_lower_char, IH.
Qed.






(** The word count is 0 exactly for a content of whitespace only (or
    none); such a content gets reading time 1 and no keyword. *)
Theorem analyze_blank_content (content : string) :
  let m := analyze_content_metrics content in
  (word_count m = 0%Z <-> all_space content = true) /\
  (all_space content = true -> reading_time m = 1%Z /\ top_keywords m = []).
Proof.
  intros m. split.
  - change (word_count m) with (Z.of_nat (length (split_ws content))).
    rewrite <- split_ws_blank. destruct (split_ws content); simpl; split;
      intros H; try reflexivity; try discriminate H; lia.
  - intros Hblank.
    assert (Hw : split_ws content = []) by now apply split_ws_blank.
    unfold m, analyze_content_metrics.
    rewrite split_ws_lower, Hw. split; reflexivity.
Qed.

Lemma analyze_blank_content_witness :
  reading_time (analyze_content_metrics "   ") = 1%Z /\
  top_keywords (analyze_content_metrics "   ") = [].
Proof. apply (analyze_blank_content "   "). reflexivity. Defined.

(* ================================================================== *)
(** ** Further properties of the generation client                     *)
(* ================================================================== *)

(** The loop when attempt [start + k] is the first to succeed: it returns
    there, and the attempts [later] are not made. *)
Lemma retry_loop_first_success endpoint prompt (max_retries : Z)
    (errors : nat -> string) (text : string) (later : list Z) :
  forall (k start : nat) (w : env),
    (Z.of_nat (start + k) < max_retries)%Z ->
    (forall i, i < k -> endpoint (calls w + i) prompt = Failure (errors (start + i))) ->
    endpoint (calls w + k) prompt = Text text ->
    retry_loop endpoint prompt max_retries
               (map Z.of_nat (seq start (S k)) ++ later) w =
      (Val (PyStr (strip text)),
       Env (session w) (calls w + S k) (log w ++ failed_attempts prompt (S k))).
Proof.
  induction k as [|k IH]; intros start w Hlt Hfail Hok.
  - rewrite Nat.add_0_r in Hok.
    cbn [seq map app retry_loop]. unfold try_except, bind, generate_content.
    rewrite Hok. unfold ret. now rewrite Nat.add_1_r.
  - pose proof (Hfail 0 (Nat.lt_0_succ _)) as Hfirst.
    rewrite !Nat.add_0_r in Hfirst.
    change (seq start (S (S k))) with (start :: seq (S start) (S k)).
    cbn [map app retry_loop].
    unfold try_except at 1, bind at 1, generate_content at 1.
    rewrite Hfirst.
    replace (Z.of_nat start =? max_retries - 1)%Z with false
      by (symmetry; apply Z.eqb_neq; lia).
    unfold bind at 1, emit at 1.
    rewrite IH.
    + cbn [session calls log].
      replace (S (calls w) + S k) with (calls w + S (S k)) by lia.
      rewrite <- !app_assoc. reflexivity.
    + lia.
    + intros i Hi. cbn [calls].
      replace (S (calls w) + i) with (calls w + S i) by lia.
      replace (S start + i) with (start + S i) by lia.
      apply Hfail. lia.
    + cbn [calls]. replace (S (calls w) + k) with (calls w + S k) by lia.
      exact Hok.
Qed.

(** The first attempt that succeeds ends the call: after [k] failures and
    a success, with [k] below the retry count, the client returns the
    stripped text of the response, having made [k + 1] calls with a pause
    of one second between two of them; no further call is made. *)
Theorem call_gemini_first_success endpoint prompt (max_retries : Z)
    (errors : nat -> string) (text : string) (k : nat) (w : env) :
  (Z.of_nat k < max_retries)%Z ->
  (forall i, i < k -> endpoint (calls w + i) prompt = Failure (errors i)) ->
  endpoint (calls w + k) prompt = Text text ->
  call_gemini_with_retry endpoint prompt max_retries w =
    (Val (PyStr (strip text)),
     Env (session w) (calls w + S k) (log w ++ failed_attempts prompt (S k))).
Proof.
  intros Hlt Hfail Hok. unfold call_gemini_with_retry, py_range.
  replace (Z.to_nat max_retries) with (S k + (Z.to_nat max_retries - S k)) by lia.
  rewrite seq_app, map_app.
  apply (retry_loop_first_success endpoint prompt max_retries errors text _ k 0 w);
    [simpl; lia | exact Hfail | exact Hok].
Qed.

(** An endpoint that fails twice and then answers. *)
Lemma call_gemini_first_success_witness :
  call_gemini_with_retry
    (fun i _ => if i <? 2 then Failure "timeout" else Text "  1. A title  ")
    "prompt" 3 fresh =
    (Val (PyStr "1. A title"),
     Env (session fresh) 3
         [ EvGenerate "prompt"; EvSleep 1000; EvGenerate "prompt"; EvSleep 1000;
           EvGenerate "prompt" ]).
Proof.
  apply (call_gemini_first_success _ "prompt" 3 (fun _ => "timeout")
           "  1. A title  " 2 fresh).
  - lia.
  - intros i Hi. simpl. destruct i as [|[|i]]; [reflexivity | reflexivity | lia].
  - reflexivity.
Defined.

Lemma retry_loop_total endpoint prompt (max_retries : Z) :
  forall (attempts : list Z) (w : env),
  exists (v : pyval) (w' : env),
    retry_loop endpoint prompt max_retries attempts w = (Val v, w') /\
    session w' = session w /\
    calls w <= calls w' <= calls w + length attempts /\
    (exists evs, log w' = log w ++ evs /\ Forall (generate_only [prompt]) evs) /\
    (v = PyNone \/ exists s, v = PyStr s) /\
    (In (max_retries - 1)%Z attempts -> exists s, v = PyStr s).
Proof.
  induction attempts as [|attempt later IH]; intros w.
  - exists PyNone, w. cbn [retry_loop length]. unfold ret.
    split; [reflexivity|]. split; [reflexivity|]. split; [lia|].
    split; [exists []; split; [now rewrite app_nil_r | constructor]|].
    split; [now left | intros []].
  - cbn [retry_loop]. unfold try_except, bind at 1, generate_content.
    assert (Hgen : Forall (generate_only [prompt]) [EvGenerate prompt]).
    { constructor; [now left | constructor]. }
    destruct (endpoint (calls w) prompt) as [t|d].
    + eexists _, _. unfold ret. split; [reflexivity|].
      cbn [session calls log length].
      split; [reflexivity|]. split; [lia|].
      split; [eexists; split; [reflexivity | exact Hgen]|].
      split; [right; eexists; reflexivity | intros _; eexists; reflexivity].
    + destruct (attempt =? max_retries - 1)%Z eqn:E.
      * eexists _, _. unfold ret. split; [reflexivity|].
        cbn [session calls log length].
        split; [reflexivity|]. split; [lia|].
        split; [eexists; split; [reflexivity | exact Hgen]|].
        split; [right; eexists; reflexivity | intros _; eexists; reflexivity].
      * unfold bind, emit.
        match goal with
        | |- context [retry_loop _ _ _ later ?w1] =>
            destruct (IH w1)
              as (v & w' & Hrun & Hs & Hc & (evs & Hl & Hevs) & Hv & Hstr)
        end.
        cbn [session calls log] in *.
        exists v, w'. split; [exact Hrun|]. cbn [length].
        split; [exact Hs|]. split; [lia|].
        split.
        { exists ([EvGenerate prompt] ++ [EvSleep 1000] ++ evs).
          split; [rewrite Hl; now rewrite <- !app_assoc|].
          constructor; [now left|]. constructor; [exact I | exact Hevs]. }
        split; [exact Hv|].
        intros [Heq|Hin]; [|now apply Hstr].
        apply Z.eqb_neq in E. congruence.
Qed.

(** Whatever the endpoint does, the client does not raise, leaves the
    session alone, calls the endpoint at most [max_retries] times and only
    adds to the log; for a retry count of at least 1 it returns a string. *)
Theorem call_gemini_total endpoint prompt (max_retries : Z) (w : env) :
  exists (v : pyval) (w' : env),
    call_gemini_with_retry endpoint prompt max_retries w = (Val v, w') /\
    session w' = session w /\
    calls w <= calls w' <= calls w + Z.to_nat max_retries /\
    (exists evs, log w' = log w ++ evs) /\
    (v = PyNone \/ exists s, v = PyStr s) /\
    ((1 <= max_retries)%Z -> exists s, v = PyStr s).
Proof.
  unfold call_gemini_with_retry.
  destruct (retry_loop_total endpoint prompt max_retries (py_range max_retries) w)
    as (v & w' & Hrun & Hs & Hc & (evs & Hl0 & _) & Hv & Hstr).
  assert (Hl : exists evs, log w' = log w ++ evs) by (now exists evs).
  exists v, w'. unfold py_range in Hc. rewrite length_map, length_seq in Hc.
  split; [exact Hrun|]. split; [exact Hs|]. split; [exact Hc|].
  split; [exact Hl|]. split; [exact Hv|].
  intros Hpos. apply Hstr. unfold py_range.
  apply in_map_iff. exists (Z.to_nat max_retries - 1). split; [lia|].
  apply in_seq. lia.
Qed.

(* ================================================================== *)
(** ** A run of "Generate Content", step by step                       *)
(* ================================================================== *)

Lemma call_default_total endpoint prompt (w : env) :
  exists (s : string) (w' : env),
    call_gemini_with_retry endpoint prompt default_retries w = (Val (PyStr s), w') /\
    True /\
    session w' = session w /\
    calls w <= calls w' <= calls w + 3 /\
    (exists evs, log w' = log w ++ evs /\ Forall (generate_only [prompt]) evs).
Proof.
  unfold call_gemini_with_retry.
  destruct (retry_loop_total endpoint prompt default_retries
              (py_range default_retries) w)
    as (v & w' & Hrun & Hs & Hc & Hl & _ & Hstr).
  destruct Hstr as [s ->]; [simpl; tauto|].
  exists s, w'. simpl in Hc. tauto.
Qed.

Section Run.

Variable endpoint : nat -> string -> outcome.

(** What is known of the texts the client returns. *)
Variable R : string -> Prop.

Hypothesis call_ok :
  forall prompt (w : env),
  exists (s : string) (w' : env),
    call_gemini_with_retry endpoint prompt default_retries w = (Val (PyStr s), w') /\
    R s /\
    session w' = session w /\
    calls w <= calls w' <= calls w + 3 /\
    (exists evs, log w' = log w ++ evs /\ Forall (generate_only [prompt]) evs).

Ltac run_call :=
  match goal with
  | |- context [call_gemini_with_retry endpoint ?p default_retries ?w1] =>
      let s := fresh "s" in
      let w2 := fresh "w2" in
      let Hcall := fresh "Hcall" in
      let HR := fresh "HR" in
      let Hs := fresh "Hs" in
      let Hc := fresh "Hc" in
      let evs := fresh "evs" in
      let Hl := fresh "Hl" in
      let Hevs := fresh "Hevs" in
      destruct (call_ok p w1) as (s & w2 & Hcall & HR & Hs & Hc & (evs & Hl & Hevs));
      rewrite Hcall
  end.

Lemma titles_task_post f total current w :
  exists w',
    titles_task endpoint f total current w
      = (Val (current + b2z (generate_titles f))%Z, w') /\
    task_post "titles"
      (create_title_prompt (video_script f) (video_type f) (target_audience f)
         (keywords f) (tone f) (style_preferences f))
      (generate_titles f)
      (fun v => exists s, R s /\ v = py_strs (extract_titles s)) w w'.
Proof using call_ok.
  unfold titles_task, task_post. destruct (generate_titles f).
  - unfold bind at 1, emit at 1. unfold bind at 1. run_call.
    unfold bind, extract_titles_of, ret, set_state, advance, emit.
    eexists. split; [reflexivity|]. cbn [session calls log] in *.
    split; [lia|]. split.
    { eexists. split; [rewrite Hl; rewrite <- !app_assoc; reflexivity|].
      constructor; [exact I|]. apply Forall_app. split; [exact Hevs|].
      constructor; [exact I | constructor]. }
    split.
    { intros k Hk. rewrite lookup_insert_ne by congruence. now rewrite Hs. }
    eexists. rewrite lookup_insert_eq. split; [reflexivity|]. eauto.
  - exists w. unfold ret, b2z. rewrite Z.add_0_r. split; [reflexivity|].
    split; [lia|]. split; [exists []; split; [now rewrite app_nil_r | reflexivity]|].
    split; reflexivity.
Qed.

Lemma description_task_post f total current w :
  exists w',
    description_task endpoint f total current w
      = (Val (current + b2z (generate_desc f))%Z, w') /\
    task_post "description"
      (create_description_prompt (video_script f) (video_type f)
         (target_audience f) (keywords f) (channel_info f) (video_length f))
      (generate_desc f)
      (fun v => exists s, R s /\ v = PyStr s) w w'.
Proof using call_ok.
  unfold description_task, task_post. destruct (generate_desc f).
  - unfold bind at 1, emit at 1. unfold bind at 1. run_call.
    unfold bind, ret, set_state, advance, emit.
    eexists. split; [reflexivity|]. cbn [session calls log] in *.
    split; [lia|]. split.
    { eexists. split; [rewrite Hl; rewrite <- !app_assoc; reflexivity|].
      constructor; [exact I|]. apply Forall_app. split; [exact Hevs|].
      constructor; [exact I | constructor]. }
    split.
    { intros k Hk. rewrite lookup_insert_ne by congruence. now rewrite Hs. }
    eexists. rewrite lookup_insert_eq. split; [reflexivity|]. eauto.
  - exists w. unfold ret, b2z. rewrite Z.add_0_r. split; [reflexivity|].
    split; [lia|]. split; [exists []; split; [now rewrite app_nil_r | reflexivity]|].
    split; reflexivity.
Qed.

Lemma tags_task_post f total current w :
  exists w',
    tags_task endpoint f total current w
      = (Val (current + b2z (generate_tags f))%Z, w') /\
    task_post "tags"
      (create_tags_prompt (video_script f) (video_type f) (keywords f)
         (competitor_analysis f))
      (generate_tags f)
      (fun v => exists s, R s /\ v = py_tags (extract_tags s)) w w'.
Proof using call_ok.
  unfold tags_task, task_post. destruct (generate_tags f).
  - unfold bind at 1, emit at 1. unfold bind at 1. run_call.
    unfold bind, extract_tags_of, ret, set_state, advance, emit.
    eexists. split; [reflexivity|]. cbn [session calls log] in *.
    split; [lia|]. split.
    { eexists. split; [rewrite Hl; rewrite <- !app_assoc; reflexivity|].
      constructor; [exact I|]. apply Forall_app. split; [exact Hevs|].
      constructor; [exact I | constructor]. }
    split.
    { intros k Hk. rewrite lookup_insert_ne by congruence. now rewrite Hs. }
    eexists. rewrite lookup_insert_eq. split; [reflexivity|]. eauto.
  - exists w. unfold ret, b2z. rewrite Z.add_0_r. split; [reflexivity|].
    split; [lia|]. split; [exists []; split; [now rewrite app_nil_r | reflexivity]|].
    split; reflexivity.
Qed.

Lemma thumbnail_task_post f total current w :
  exists w',
    thumbnail_task endpoint f total current w
      = (Val (current + b2z (generate_thumb f))%Z, w') /\
    task_post "thumbnail_concepts"
      (create_thumbnail_prompt (video_script f) (video_type f)
         (target_audience f))
      (generate_thumb f)
      (fun v => exists s, R s /\ v = PyStr s) w w'.
Proof using call_ok.
  unfold thumbnail_task, task_post. destruct (generate_thumb f).
  - unfold bind at 1, emit at 1. unfold bind at 1. run_call.
    unfold bind, ret, set_state, advance, emit.
    eexists. split; [reflexivity|]. cbn [session calls log] in *.
    split; [lia|]. split.
    { eexists. split; [rewrite Hl; rewrite <- !app_assoc; reflexivity|].
      constructor; [exact I|]. apply Forall_app. split; [exact Hevs|].
      constructor; [exact I | constructor]. }
    split.
    { intros k Hk. rewrite lookup_insert_ne by congruence. now rewrite Hs. }
    eexists. rewrite lookup_insert_eq. split; [reflexivity|]. eauto.
  - exists w. unfold ret, b2z. rewrite Z.add_0_r. split; [reflexivity|].
    split; [lia|]. split; [exists []; split; [now rewrite app_nil_r | reflexivity]|].
    split; reflexivity.
Qed.

Lemma history_task_run f now w tl dv tg th h :
  session w !! "titles" = Some (PyList tl) ->
  session w !! "description" = Some dv ->
  session w !! "tags" = Some (PyDict tg) ->
  (forall v, dict_lookup tg "all" = Some v -> exists l, v = PyList l) ->
  session w !! "thumbnail_concepts" = Some th ->
  session w !! "generation_history" = Some (PyList h) ->
  exists w',
    history_task f now w = (Val tt, w') /\
    calls w' = calls w /\ log w' = log w /\
    (forall k, k <> "generation_history" -> session w' !! k = session w !! k) /\
    session w' !! "generation_history" =
      Some (PyList (if save_history f
                    then h ++ [history_entry f now (Z.of_nat (length tl)) dv
                                 (tags_count tg) th]
                    else h)).
Proof.
  intros Ht Hd Htg Hall Hth Hh. unfold history_task.
  destruct (save_history f).
  - unfold bind, get_state. rewrite Ht. cbn [py_len]. unfold ret.
    rewrite Hd, Htg. cbn [py_get]. unfold ret.
    assert (Hn : exists l, (match dict_lookup tg "all" with
                            | Some x => x
                            | None => PyList []
                            end) = PyList l /\ tags_count tg = Z.of_nat (length l)).
    { unfold tags_count. destruct (dict_lookup tg "all") as [v|] eqn:E.
      - destruct (Hall v eq_refl) as [l ->]. now exists l.
      - now exists []. }
    destruct Hn as (l & -> & ->). cbn [py_len]. unfold ret.
    rewrite Hth, Hh. unfold set_state. eexists. split; [reflexivity|].
    cbn [session calls log]. split; [reflexivity|]. split; [reflexivity|].
    split; [intros k Hk; now rewrite lookup_insert_ne by congruence|].
    now rewrite lookup_insert_eq.
  - exists w. unfold ret. repeat split; try reflexivity. exact Hh.
Qed.

Lemma all_space_append a b : all_space (a +:+ b) = all_space a && all_space b.
Proof.
  induction a as [|c a IH]; [reflexivity|].
  rewrite append_cons. simpl. now rewrite IH, andb_assoc.
Qed.

Lemma strip_nonblank s : all_space s = false -> truthy (strip s) = true.
Proof.
  intros Hns. destruct (strip s) eqn:E; [|reflexivity].
  exfalso. destruct (lstrip_split s) as (ws1 & Hs & H1).
  destruct (rstrip_split (lstrip s)) as (ws3 & Hl & H3).
  fold (strip s) in Hl. rewrite E, append_empty_l in Hl.
  rewrite Hs, Hl, all_space_append, H1, H3 in Hns. discriminate.
Qed.

(** A run on a non-blank script, from a session of the usual shape. *)
Lemma on_generate_run f now w :
  session_ok (session w) -> all_space (video_script f) = false ->
  exists w',
    on_generate endpoint f now w = (Val tt, w') /\
    calls w <= calls w' <= calls w + 3 * enabled_tasks f /\
    (exists evs, log w' = log w ++ evs ++ [EvMarkdown success_banner] /\
                 Forall (generate_only (form_prompts f)) evs) /\
    session w' !! "content_metrics" =
      (if include_analytics f
       then Some (py_metrics (analyze_content_metrics (video_script f)))
       else session w !! "content_metrics") /\
    (if generate_titles f
     then exists s, R s /\ session w' !! "titles" = Some (py_strs (extract_titles s))
     else session w' !! "titles" = session w !! "titles") /\
    (if generate_desc f
     then exists s, R s /\ session w' !! "description" = Some (PyStr s)
     else session w' !! "description" = session w !! "description") /\
    (if generate_tags f
     then exists s, R s /\ session w' !! "tags" = Some (py_tags (extract_tags s))
     else session w' !! "tags" = session w !! "tags") /\
    (if generate_thumb f
     then exists s, R s /\ session w' !! "thumbnail_concepts" = Some (PyStr s)
     else session w' !! "thumbnail_concepts" = session w !! "thumbnail_concepts") /\
    (exists tl dv tg th h,
       session w' !! "titles" = Some (PyList tl) /\
       session w' !! "description" = Some dv /\
       session w' !! "tags" = Some (PyDict tg) /\
       (forall v, dict_lookup tg "all" = Some v -> exists l, v = PyList l) /\
       session w' !! "thumbnail_concepts" = Some th /\
       session w !! "generation_history" = Some (PyList h) /\
       session w' !! "generation_history" =
         Some (PyList (if save_history f
                       then h ++ [history_entry f now (Z.of_nat (length tl)) dv
                                    (tags_count tg) th]
                       else h))) /\
    (forall k, ~ In k run_keys -> session w' !! k = session w !! k).
Proof using call_ok.
  intros (Ht & Hd & Htg & Hth & Hh) Hscript.
  set (w0 := Env (if include_analytics f
                  then <["content_metrics" :=
                           py_metrics (analyze_content_metrics (video_script f))]>
                         (session w)
                  else session w)
                 (calls w)
                 ((log w ++ [EvProgress 0 1]) ++ [EvEmpty "status_text"])).
  set (total := (b2z (generate_titles f) + b2z (generate_desc f)
                 + b2z (generate_tags f) + b2z (generate_thumb f))%Z).
  assert (H0 : forall k, k <> "content_metrics" -> session w0 !! k = session w !! k).
  { intros k Hk. unfold w0. cbn [session].
    destruct (include_analytics f); [now rewrite lookup_insert_ne by congruence|].
    reflexivity. }
  destruct (titles_task_post f total 0 w0) as (w1 & E1 & C1 & (ev1 & L1 & A1) & F1 & K1).
  destruct (description_task_post f total (0 + b2z (generate_titles f)) w1)
    as (w2 & E2 & C2 & (ev2 & L2 & A2) & F2 & K2).
  destruct (tags_task_post f total
              (0 + b2z (generate_titles f) + b2z (generate_desc f)) w2)
    as (w3 & E3 & C3 & (ev3 & L3 & A3) & F3 & K3).
  destruct (thumbnail_task_post f total
              (0 + b2z (generate_titles f) + b2z (generate_desc f)
               + b2z (generate_tags f)) w3)
    as (w4 & E4 & C4 & (ev4 & L4 & A4) & F4 & K4).
  (* the four result keys at the end of the steps *)
  assert (T4 : session w4 !! "titles" = session w1 !! "titles").
  { rewrite F4, F3, F2 by congruence. reflexivity. }
  assert (D4 : session w4 !! "description" = session w2 !! "description").
  { rewrite F4, F3 by congruence. reflexivity. }
  assert (G4 : session w4 !! "tags" = session w3 !! "tags").
  { rewrite F4 by congruence. reflexivity. }
  assert (D1 : session w1 !! "description" = session w !! "description").
  { rewrite F1, H0 by congruence. reflexivity. }
  assert (G2 : session w2 !! "tags" = session w !! "tags").
  { rewrite F2, F1, H0 by congruence. reflexivity. }
  assert (B3 : session w3 !! "thumbnail_concepts" = session w !! "thumbnail_concepts").
  { rewrite F3, F2, F1, H0 by congruence. reflexivity. }
  assert (Y4 : session w4 !! "generation_history" = session w !! "generation_history").
  { rewrite F4, F3, F2, F1, H0 by congruence. reflexivity. }
  assert (Ht4 : exists tl, session w4 !! "titles" = Some (PyList tl)).
  { rewrite T4. destruct (generate_titles f).
    - destruct K1 as (v & -> & s & _ & ->). eexists. reflexivity.
    - rewrite K1, H0 by congruence. exact Ht. }
  assert (Hd4 : exists dv, session w4 !! "description" = Some dv).
  { rewrite D4. destruct (generate_desc f).
    - destruct K2 as (v & -> & _). eauto.
    - rewrite K2, D1. destruct Hd as [dv ->]. eauto. }
  assert (Hg4 : exists tg, session w4 !! "tags" = Some (PyDict tg) /\
                  forall v, dict_lookup tg "all" = Some v -> exists l, v = PyList l).
  { rewrite G4. destruct (generate_tags f).
    - destruct K3 as (v & -> & s & _ & ->). eexists. split; [reflexivity|].
      intros v. generalize (extract_tags s). intros d.
      induction d as [|[k tags] d IH]; simpl; [discriminate|].
      destruct (String.eqb k "all"); [intros [= <-]; eexists; reflexivity | exact IH].
    - rewrite K3, G2. exact Htg. }
  assert (Hb4 : exists th, session w4 !! "thumbnail_concepts" = Some th).
  { destruct (generate_thumb f).
    - destruct K4 as (v & -> & _). eauto.
    - rewrite K4, B3. destruct Hth as [th ->]. eauto. }
  destruct Ht4 as [tl Ht4]. destruct Hd4 as [dv Hd4].
  destruct Hg4 as (tg & Hg4 & Hall). destruct Hb4 as [th Hb4].
  destruct Hh as [h Hh]. rewrite Hh in Y4.
  destruct (history_task_run f now w4 tl dv tg th h Ht4 Hd4 Hg4 Hall Hb4 Y4)
    as (w5 & E5 & C5 & L5 & F5 & K5).
  exists (Env (session w5) (calls w5)
              ((((((log w5 ++ [EvStatus "Generation complete!"])
                   ++ [EvProgress 1 1]) ++ [EvSleep 500])
                 ++ [EvEmpty "progress_bar"]) ++ [EvEmpty "status_text"])
               ++ [EvMarkdown success_banner])).
  split.
  { unfold on_generate. rewrite (strip_nonblank _ Hscript). cbn [negb].
    transitivity
      (try_except
         (current_task <- titles_task endpoint f total 0 ;;
          current_task <- description_task endpoint f total current_task ;;
          current_task <- tags_task endpoint f total current_task ;;
          current_task <- thumbnail_task endpoint f total current_task ;;
          history_task f now ;;
          emit (EvStatus "Generation complete!") ;;
          emit (EvProgress 1 1) ;;
          emit (EvSleep 500) ;;
          emit (EvEmpty "progress_bar") ;;
          emit (EvEmpty "status_text") ;;
          emit (EvMarkdown success_banner))
         (fun e => emit (EvMarkdown (error_banner e))) w0).
    { unfold w0. destruct (include_analytics f); reflexivity. }
    unfold try_except. unfold bind at 1. rewrite E1.
    unfold bind at 1. rewrite E2. unfold bind at 1. rewrite E3.
    unfold bind at 1. rewrite E4. unfold bind at 1. rewrite E5.
    reflexivity. }
  cbn [session calls log].
  split.
  { unfold enabled_tasks. unfold w0 in C1. cbn [calls] in C1.
    destruct (generate_titles f), (generate_desc f), (generate_tags f),
      (generate_thumb f); simpl Nat.b2n; lia. }
  split.
  { exists ([EvProgress 0 1; EvEmpty "status_text"] ++ ev1 ++ ev2 ++ ev3 ++ ev4
            ++ [ EvStatus "Generation complete!"; EvProgress 1 1; EvSleep 500;
                 EvEmpty "progress_bar"; EvEmpty "status_text" ]).
    split.
    { rewrite L5, L4, L3, L2, L1. unfold w0. cbn [log].
      rewrite <- !app_assoc. reflexivity. }
    assert (Hin : forall (b : bool) prompt evs,
              (b = true -> In prompt (form_prompts f)) ->
              (if b then Forall (generate_only [prompt]) evs else evs = []) ->
              Forall (generate_only (form_prompts f)) evs).
    { intros b prompt evs Hp Hevs. destruct b; [|subst evs; constructor].
      eapply List.Forall_impl; [|exact Hevs].
      intros [] Hev; try exact I. destruct Hev as [<-|[]]. now apply Hp. }
    unfold form_prompts in Hin.
    constructor; [exact I|]. constructor; [exact I|].
    apply Forall_app. split.
    { eapply Hin; [|exact A1]. intros ->. rewrite !in_app_iff. left. now left. }
    apply Forall_app. split.
    { eapply Hin; [|exact A2]. intros ->. rewrite !in_app_iff.
      right. left. now left. }
    apply Forall_app. split.
    { eapply Hin; [|exact A3]. intros ->. rewrite !in_app_iff.
      right. right. left. now left. }
    apply Forall_app. split.
    { eapply Hin; [|exact A4]. intros ->. rewrite !in_app_iff.
      right. right. right. now left. }
    repeat (constructor; [exact I|]). constructor. }
  split.
  { rewrite F5, F4, F3, F2, F1 by congruence. unfold w0. cbn [session].
    destruct (include_analytics f); [now rewrite lookup_insert_eq | reflexivity]. }
  split.
  { rewrite F5, T4 by congruence. destruct (generate_titles f).
    - destruct K1 as (v & -> & s & HR & ->). eauto.
    - rewrite K1. apply H0. congruence. }
  split.
  { rewrite F5, D4 by congruence. destruct (generate_desc f).
    - destruct K2 as (v & -> & s & HR & ->). eauto.
    - now rewrite K2. }
  split.
  { rewrite F5, G4 by congruence. destruct (generate_tags f).
    - destruct K3 as (v & -> & s & HR & ->). eauto.
    - now rewrite K3. }
  split.
  { rewrite F5 by congruence. destruct (generate_thumb f).
    - destruct K4 as (v & -> & s & HR & ->). eauto.
    - now rewrite K4. }
  split.
  { exists tl, dv, tg, th, h. rewrite !F5 by congruence. tauto. }
  intros k Hk. unfold run_keys in Hk. simpl in Hk.
  rewrite F5, F4, F3, F2, F1, H0 by (intros ->; tauto). reflexivity.
Qed.

End Run.

Lemma all_space_cases s : all_space s = true \/ all_space s = false.
Proof. destruct (all_space s); auto. Qed.

Lemma on_generate_blank endpoint f now w :
  all_space (video_script f) = true ->
  session (snd (on_generate endpoint f now w)) = session w.
Proof.
  intros Hblank. unfold on_generate.
  now rewrite (strip_all_space _ Hblank).
Qed.

Lemma session_ok_of_run (s s' : gmap string pyval) f now :
  (exists tl dv tg th h,
     s' !! "titles" = Some (PyList tl) /\
     s' !! "description" = Some dv /\
     s' !! "tags" = Some (PyDict tg) /\
     (forall v, dict_lookup tg "all" = Some v -> exists l, v = PyList l) /\
     s' !! "thumbnail_concepts" = Some th /\
     s !! "generation_history" = Some (PyList h) /\
     s' !! "generation_history" =
       Some (PyList (if save_history f
                     then h ++ [history_entry f now (Z.of_nat (length tl)) dv
                                  (tags_count tg) th]
                     else h))) ->
  session_ok s'.
Proof.
  intros (tl & dv & tg & th & h & Ht & Hd & Hg & Hall & Hb & _ & Hh).
  unfold session_ok. rewrite Ht, Hd, Hg, Hb, Hh. eauto 10.
Qed.

(* ------------------------------------------------------------------ *)

(** On a session of the usual shape and a script that is not blank, a
    click on "Generate Content" never ends in the error banner, whatever
    the endpoint does: every step that is switched on runs, with at most
    three calls each, the last thing shown is the success banner, and the
    session keeps its shape. *)
Theorem on_generate_completes endpoint (f : form) (now : string) (w : env) :
  session_ok (session w) -> all_space (video_script f) = false ->
  exists w',
    on_generate endpoint f now w = (Val tt, w') /\
    calls w <= calls w' <= calls w + 3 * enabled_tasks f /\
    (exists evs, log w' = log w ++ evs ++ [EvMarkdown success_banner]) /\
    session_ok (session w').
Proof.
  intros Hok Hscript.
  destruct (on_generate_run endpoint (fun _ => True)
              (call_default_total endpoint) f now w Hok Hscript)
    as (w' & Hrun & Hc & (evs & Hl & _) & _ & _ & _ & _ & _ & Hshape & _).
  exists w'. split; [exact Hrun|]. split; [exact Hc|].
  split; [now exists evs|].
  eapply session_ok_of_run. exact Hshape.
Qed.

Lemma session_ok_fresh : session_ok (session fresh).
Proof.
  unfold session_ok.
  split; [exists []; reflexivity|]. split; [eexists; reflexivity|].
  split; [exists []; split; [reflexivity | discriminate]|].
  split; [eexists; reflexivity | exists []; reflexivity].
Qed.

Lemma on_generate_completes_witness :
  exists w',
    on_generate dead_endpoint full_form "2024-05-01T12:00:00" fresh = (Val tt, w') /\
    calls fresh <= calls w' <= calls fresh + 3 * enabled_tasks full_form /\
    (exists evs, log w' = log fresh ++ evs ++ [EvMarkdown success_banner]) /\
    session_ok (session w').
Proof.
  apply on_generate_completes; [apply session_ok_fresh | reflexivity].
Defined.

(** A run assigns only the keys of the steps that are switched on (and
    the metrics and the history when those are switched on): every other
    key of the session, so the selected title, and the result of every
    step that is switched off, is left as it was. *)
Theorem on_generate_frame endpoint (f : form) (now : string) (w : env)
    (key : string) :
  session_ok (session w) -> ~ In key (written_keys f) ->
  session (snd (on_generate endpoint f now w)) !! key = session w !! key.
Proof.
  intros Hok Hkey.
  destruct (all_space_cases (video_script f)) as [Hblank|Hscript].
  { now rewrite on_generate_blank. }
  destruct (on_generate_run endpoint (fun _ => True)
              (call_default_total endpoint) f now w Hok Hscript)
    as (w' & Hrun & _ & _ & Hm & Ht & Hd & Hg & Hb & Hshape & Hother).
  rewrite Hrun. cbn [snd].
  destruct Hshape as (tl & dv & tg & th & h & _ & _ & _ & _ & _ & Hh & Hh').
  unfold written_keys in Hkey. rewrite !in_app_iff in Hkey.
  destruct (String.eqb key "content_metrics") eqn:E1;
    [apply String.eqb_eq in E1 as ->;
     destruct (include_analytics f); [exfalso; apply Hkey; simpl; tauto | exact Hm]|].
  destruct (String.eqb key "titles") eqn:E2;
    [apply String.eqb_eq in E2 as ->;
     destruct (generate_titles f); [exfalso; apply Hkey; simpl; tauto | exact Ht]|].
  destruct (String.eqb key "description") eqn:E3;
    [apply String.eqb_eq in E3 as ->;
     destruct (generate_desc f); [exfalso; apply Hkey; simpl; tauto | exact Hd]|].
  destruct (String.eqb key "tags") eqn:E4;
    [apply String.eqb_eq in E4 as ->;
     destruct (generate_tags f); [exfalso; apply Hkey; simpl; tauto | exact Hg]|].
  destruct (String.eqb key "thumbnail_concepts") eqn:E5;
    [apply String.eqb_eq in E5 as ->;
     destruct (generate_thumb f); [exfalso; apply Hkey; simpl; tauto | exact Hb]|].
  destruct (String.eqb key "generation_history") eqn:E6;
    [apply String.eqb_eq in E6 as ->;
     destruct (save_history f);
     [exfalso; apply Hkey; simpl; tauto | now rewrite Hh, Hh']|].
  apply String.eqb_neq in E1, E2, E3, E4, E5, E6.
  apply Hother. unfold run_keys. simpl. intuition congruence.
Qed.

Lemma on_generate_frame_witness :
  session (snd (on_generate eight_titles_endpoint three_titles_form
                  "2024-05-01T12:00:00" fresh)) !! "description"
  = session fresh !! "description".
Proof.
  apply on_generate_frame; [apply session_ok_fresh|].
  simpl. intros [H|[H|[]]]; discriminate H.
Defined.

(** The history is append-only: a run with "Save generation history" on
    puts one entry behind the entries that were there, with the time of
    the run, the video type and keywords of the form, and the number of
    titles and tags the session holds at the end of the run; with the
    setting off the history is as it was. *)
Theorem on_generate_history endpoint (f : form) (now : string) (w : env)
    (h : list pyval) :
  session_ok (session w) -> all_space (video_script f) = false ->
  session w !! "generation_history" = Some (PyList h) ->
  let w' := snd (on_generate endpoint f now w) in
  exists tl dv tg th,
    session w' !! "titles" = Some (PyList tl) /\
    session w' !! "description" = Some dv /\
    session w' !! "tags" = Some (PyDict tg) /\
    session w' !! "thumbnail_concepts" = Some th /\
    session w' !! "generation_history" =
      Some (PyList (if save_history f
                    then h ++ [history_entry f now (Z.of_nat (length tl)) dv
                                 (tags_count tg) th]
                    else h)).
Proof.
  intros Hok Hscript Hh w'.
  destruct (on_generate_run endpoint (fun _ => True)
              (call_default_total endpoint) f now w Hok Hscript)
    as (w1 & Hrun & _ & _ & _ & _ & _ & _ & _ & Hshape & _).
  subst w'. rewrite Hrun. cbn [snd].
  destruct Hshape as (tl & dv & tg & th & h' & Ht & Hd & Hg & _ & Hb & Hh0 & Hh').
  rewrite Hh in Hh0. injection Hh0 as <-.
  exists tl, dv, tg, th. tauto.
Qed.

Lemma on_generate_history_witness :
  exists tl dv tg th,
    session after_generate !! "titles" = Some (PyList tl) /\
    session after_generate !! "description" = Some dv /\
    session after_generate !! "tags" = Some (PyDict tg) /\
    session after_generate !! "thumbnail_concepts" = Some th /\
    session after_generate !! "generation_history" =
      Some (PyList (if save_history three_titles_form
                    then [] ++ [history_entry three_titles_form "2024-05-01T12:00:00"
                                  (Z.of_nat (length tl)) dv (tags_count tg) th]
                    else [])).
Proof.
  apply (on_generate_history eight_titles_endpoint three_titles_form
           "2024-05-01T12:00:00" fresh []);
    [apply session_ok_fresh | reflexivity | reflexivity].
Defined.

(** Whatever the slider says and whatever the endpoint answers, a run
    with "Generate Titles" on stores a list of at most eight titles, each
    of them trimmed. *)
Theorem on_generate_titles endpoint (f : form) (now : string) (w : env) :
  session_ok (session w) -> all_space (video_script f) = false ->
  generate_titles f = true ->
  exists titles : list string,
    session (snd (on_generate endpoint f now w)) !! "titles" = Some (py_strs titles) /\
    length titles <= 8 /\ Forall trimmed titles.
Proof.
  intros Hok Hscript Hen.
  destruct (on_generate_run endpoint (fun _ => True)
              (call_default_total endpoint) f now w Hok Hscript)
    as (w1 & Hrun & _ & _ & _ & Ht & _).
  rewrite Hrun. cbn [snd]. rewrite Hen in Ht. destruct Ht as (s & _ & Ht).
  exists (extract_titles s). split; [exact Ht|].
  split; [apply extract_titles_at_most_eight|].
  rewrite extract_titles_numbered. apply List.Forall_forall.
  intros title Hin. apply in_map_iff in Hin as [line [<- _]].
  apply line_title_trimmed.
Qed.

Lemma on_generate_titles_witness :
  exists titles : list string,
    session after_generate !! "titles" = Some (py_strs titles) /\
    length titles <= 8 /\ Forall trimmed titles.
Proof.
  apply (on_generate_titles eight_titles_endpoint three_titles_form
           "2024-05-01T12:00:00" fresh);
    [apply session_ok_fresh | reflexivity | reflexivity].
Defined.

Lemma call_failing e prompt (w : env) :
  exists (s : string) (w' : env),
    call_gemini_with_retry (failing_endpoint e) prompt default_retries w
      = (Val (PyStr s), w') /\
    s = failure_text default_retries e /\
    session w' = session w /\
    calls w <= calls w' <= calls w + 3 /\
    (exists evs, log w' = log w ++ evs /\ Forall (generate_only [prompt]) evs).
Proof.
  eexists _, _. split.
  - unfold call_gemini_with_retry.
    apply (retry_loop_all_fail (failing_endpoint e) prompt default_retries
             (fun _ => e) 2 0 w); [reflexivity | reflexivity].
  - cbn [session calls log]. split; [reflexivity|]. split; [reflexivity|].
    split; [lia|]. eexists. split; [reflexivity|].
    simpl. repeat (constructor; [simpl; tauto|]). constructor.
Qed.

(** When every call of the endpoint fails, the run still ends in the
    success banner: the error text of the client is stored as the
    description and as the thumbnail text, and the title list is empty
    (for an error description without line feed). *)
Theorem on_generate_all_calls_fail (e : string) (f : form) (now : string) (w : env) :
  session_ok (session w) -> all_space (video_script f) = false ->
  ~ occurs LF e ->
  exists w',
    on_generate (failing_endpoint e) f now w = (Val tt, w') /\
    (exists evs, log w' = log w ++ evs ++ [EvMarkdown success_banner]) /\
    (generate_titles f = true -> session w' !! "titles" = Some (PyList [])) /\
    (generate_desc f = true ->
     session w' !! "description" = Some (PyStr (failure_text 3 e))) /\
    (generate_thumb f = true ->
     session w' !! "thumbnail_concepts" = Some (PyStr (failure_text 3 e))).
Proof.
  intros Hok Hscript He.
  destruct (on_generate_run (failing_endpoint e)
              (fun s => s = failure_text default_retries e)
              (call_failing e) f now w Hok Hscript)
    as (w' & Hrun & _ & (evs & Hl & _) & _ & Ht & Hd & _ & Hb & _).
  exists w'. split; [exact Hrun|]. split; [now exists evs|].
  split; [|split].
  - intros Hen. rewrite Hen in Ht. destruct Ht as (s & -> & ->).
    now rewrite failure_text_no_titles.
  - intros Hen. rewrite Hen in Hd. now destruct Hd as (s & -> & ->).
  - intros Hen. rewrite Hen in Hb. now destruct Hb as (s & -> & ->).
Qed.

Lemma on_generate_all_calls_fail_witness :
  exists w',
    on_generate (failing_endpoint "503 service unavailable") full_form
      "2024-05-01T12:00:00" fresh = (Val tt, w') /\
    (exists evs, log w' = log fresh ++ evs ++ [EvMarkdown success_banner]) /\
    (generate_titles full_form = true -> session w' !! "titles" = Some (PyList [])) /\
    (generate_desc full_form = true ->
     session w' !! "description"
     = Some (PyStr (failure_text 3 "503 service unavailable"))) /\
    (generate_thumb full_form = true ->
     session w' !! "thumbnail_concepts"
     = Some (PyStr (failure_text 3 "503 service unavailable"))).
Proof.
  apply on_generate_all_calls_fail; [apply session_ok_fresh | reflexivity |].
  unfold occurs. simpl. intros H.
  repeat (destruct H as [H|H]; [discriminate H|]). exact H.
Defined.

(* ================================================================== *)
(** ** Session set-up, clearing, export and the history list           *)
(* ================================================================== *)

Lemma init_loop ds (w : env) :
  fst (for_each ds init_key w) = Val tt /\
  calls (snd (for_each ds init_key w)) = calls w /\
  log (snd (for_each ds init_key w)) = log w /\
  forall key,
    session (snd (for_each ds init_key w)) !! key =
      match session w !! key with
      | Some v => Some v
      | None => dict_lookup ds key
      end.
Proof.
  revert w. induction ds as [|[k v] ds IH]; intros w.
  - cbn [for_each]. unfold ret. cbn [fst snd].
    repeat split. intros key. now destruct (session w !! key).
  - assert (Hstep : exists w1,
              init_key (k, v) w = (Val tt, w1) /\
              calls w1 = calls w /\ log w1 = log w /\
              forall key,
                session w1 !! key =
                  match session w !! key with
                  | Some x => Some x
                  | None => if String.eqb k key then Some v else None
                  end).
    { unfold init_key, set_state. cbn [fst snd].
      destruct (session w !! k) eqn:Hk.
      - exists w. repeat split. intros key.
        destruct (session w !! key) eqn:E; [reflexivity|].
        destruct (String.eqb k key) eqn:Ek; [|reflexivity].
        apply String.eqb_eq in Ek as <-. congruence.
      - eexists. split; [reflexivity|]. cbn [session calls log].
        repeat split. intros key.
        destruct (String.eqb k key) eqn:Ek.
        + apply String.eqb_eq in Ek as <-. now rewrite lookup_insert_eq, Hk.
        + apply String.eqb_neq in Ek. rewrite lookup_insert_ne by assumption.
          now destruct (session w !! key). }
    destruct Hstep as (w1 & Hrun & Hc & Hl & Hs).
    cbn [for_each]. unfold bind. rewrite Hrun.
    destruct (IH w1) as (H1 & H2 & H3 & H4).
    split; [exact H1|]. split; [now rewrite H2|]. split; [now rewrite H3|].
    intros key. rewrite H4, Hs. cbn [dict_lookup].
    destruct (session w !! key); [reflexivity|].
    now destruct (String.eqb k key).
Qed.

(** [initialize_session_state] only fills gaps: a key the session has
    keeps its value, a key it lacks gets its default (and a key without
    default stays absent); nothing is called or logged, and a second
    initialisation changes nothing. *)
Theorem initialize_session_state_fills (w : env) :
  let w' := snd (initialize_session_state w) in
  fst (initialize_session_state w) = Val tt /\
  calls w' = calls w /\ log w' = log w /\
  (forall key,
     session w' !! key =
       match session w !! key with
       | Some v => Some v
       | None => dict_lookup defaults key
       end) /\
  session (snd (initialize_session_state w')) = session w'.
Proof.
  intros w'. subst w'. unfold initialize_session_state.
  destruct (init_loop defaults w) as (H1 & H2 & H3 & H4).
  split; [exact H1|]. split; [exact H2|]. split; [exact H3|].
  split; [exact H4|].
  apply map_eq. intros key.
  destruct (init_loop defaults (snd (for_each defaults init_key w)))
    as (_ & _ & _ & H5).
  rewrite H5, H4. destruct (session w !! key); [reflexivity|].
  destruct (dict_lookup defaults key) eqn:E; rewrite ?E; reflexivity.
Qed.

Lemma session_ok_same (s s' : gmap string pyval) :
  (forall key, In key ["titles"; "description"; "tags"; "thumbnail_concepts";
                       "generation_history"] ->
               s' !! key = s !! key) ->
  session_ok s -> session_ok s'.
Proof.
  intros Hsame Hok. unfold session_ok in *.
  rewrite !Hsame by (simpl; tauto). exact Hok.
Qed.

(** The shape of the session is an invariant of the script: the first
    initialisation establishes it, and initialising again, "Clear All
    Results", a "Select" button and "Generate Content" keep it. *)
Theorem session_ok_invariant :
  session_ok (session fresh) /\
  forall w : env,
    session_ok (session w) ->
    session_ok (session (snd (initialize_session_state w))) /\
    session_ok (session (snd (on_clear w))) /\
    (forall title, session_ok (session (snd (on_select title w)))) /\
    (forall endpoint f now, session_ok (session (snd (on_generate endpoint f now w)))).
Proof.
  split; [apply session_ok_fresh|].
  intros w Hok. split; [|split; [|split]].
  - apply (session_ok_same (session w)); [|exact Hok].
    intros key Hkey.
    destruct (init_loop defaults w) as (_ & _ & _ & H4).
    unfold initialize_session_state. rewrite H4.
    destruct (session w !! key) eqn:E; [reflexivity|].
    exfalso. destruct Hok as ([l Ht] & [d Hd] & (g & Hg & _) & [b Hb] & [h Hh]).
    simpl in Hkey.
    destruct Hkey as [<-|[<-|[<-|[<-|[<-|[]]]]]]; congruence.
  - rewrite on_clear_session. cbn [snd session].
    destruct Hok as (_ & _ & _ & _ & [h Hh]).
    unfold session_ok.
    split; [exists []; now simplify_map_eq|].
    split; [eexists; now simplify_map_eq|].
    split; [exists []; split; [now simplify_map_eq | discriminate]|].
    split; [eexists; now simplify_map_eq|].
    exists h. now simplify_map_eq.
  - intros title. apply (session_ok_same (session w)); [|exact Hok].
    intros key Hkey. unfold on_select, bind, set_state, emit. cbn [snd session].
    rewrite lookup_insert_ne; [reflexivity|].
    simpl in Hkey. intros <-.
    destruct Hkey as [H|[H|[H|[H|[H|[]]]]]]; discriminate H.
  - intros endpoint f now.
    destruct (all_space_cases (video_script f)) as [Hblank|Hscript].
    + now rewrite on_generate_blank.
    + destruct (on_generate_run endpoint (fun _ => True)
                  (call_default_total endpoint) f now w Hok Hscript)
        as (w' & Hrun & _ & _ & _ & _ & _ & _ & _ & Hshape & _).
      rewrite Hrun. cbn [snd]. eapply session_ok_of_run. exact Hshape.
Qed.

Lemma session_ok_invariant_witness :
  session_ok (session (snd (on_clear after_generate))).
Proof.
  destruct session_ok_invariant as [Hfresh Hstep].
  destruct (Hstep fresh Hfresh) as (_ & _ & _ & Hgen).
  pose proof (Hgen eight_titles_endpoint three_titles_form "2024-05-01T12:00:00")
    as Hafter.
  fold after_generate in Hafter.
  destruct (Hstep after_generate Hafter) as (_ & Hclear & _).
  exact Hclear.
Defined.

(* ------------------------------------------------------------------ *)

Lemma on_clear_lookups (w : env) :
  let s := session (snd (on_clear w)) in
  s !! "titles" = Some (PyList []) /\
  s !! "description" = Some (PyStr "") /\
  s !! "tags" = Some (PyDict []) /\
  s !! "thumbnail_concepts" = Some (PyStr "") /\
  s !! "content_metrics" = Some (PyDict []).
Proof.
  rewrite on_clear_session. cbn [snd session].
  repeat split; now simplify_map_eq.
Qed.

(** After "Clear All Results" nothing is left to show or to export: the
    tests in front of the "Generated Content" header and of the title,
    description, tag, thumbnail and metrics blocks are all false, and
    "Export Current Results" answers with the warning, for every export
    format. *)
Theorem on_clear_nothing_left (w : env) (export_format now stamp : string) :
  let w' := snd (on_clear w) in
  results_shown w' = (Val false, w') /\
  (forall key,
     In key ["titles"; "description"; "tags"; "thumbnail_concepts";
             "content_metrics"] ->
     section_shown key w' = (Val false, w')) /\
  on_export export_format now stamp w' = (Val (ExportWarning "No content to export"), w').
Proof.
  intros w'. destruct (on_clear_lookups w) as (Ht & Hd & Hg & Hb & Hm).
  fold w' in Ht, Hd, Hg, Hb, Hm.
  split; [|split].
  - unfold results_shown, bind, get_state.
    rewrite Ht. cbv beta iota. rewrite Hd. cbv beta iota.
    rewrite Hg. cbv beta iota. rewrite Hb. reflexivity.
  - intros key Hkey. unfold section_shown, bind, get_state. simpl in Hkey.
    destruct Hkey as [<-|[<-|[<-|[<-|[<-|[]]]]]];
      [rewrite Ht | rewrite Hd | rewrite Hg | rewrite Hb | rewrite Hm];
      reflexivity.
  - unfold on_export, bind, get_state.
    rewrite Ht. cbv beta iota. cbn [py_truth]. rewrite Hd. reflexivity.
Qed.

(** "Export Current Results" never changes the session or the log.  With
    a title list or a description that is not empty, the JSON format gives
    the download of the current titles, description, tags and metrics
    under a time-stamped file name, and every other format gives nothing;
    with neither, it gives the warning. *)
Theorem on_export_cases (export_format now stamp : string) (w : env)
    (titles description tags metrics : pyval) :
  session w !! "titles" = Some titles ->
  session w !! "description" = Some description ->
  session w !! "tags" = Some tags ->
  session w !! "content_metrics" = Some metrics ->
  on_export export_format now stamp w =
    (Val (if py_truth titles || py_truth description
          then if String.eqb export_format "JSON"
               then ExportDownload "Download JSON"
                      (PyDict [ ("timestamp", PyStr now); ("titles", titles);
                                ("description", description); ("tags", tags);
                                ("metrics", metrics) ])
                      ("youtube_content_" +:+ stamp +:+ ".json")
                      "application/json"
               else ExportNothing
          else ExportWarning "No content to export"),
     w).
Proof.
  intros Ht Hd Hg Hm. unfold on_export, bind, get_state.
  rewrite Ht. cbv beta iota.
  destruct (py_truth titles) eqn:E1.
  - unfold ret. cbv beta iota. rewrite Ht. cbv beta iota.
    rewrite Hd. cbv beta iota. rewrite Hg. cbv beta iota.
    rewrite Hm. cbv beta iota. cbn [orb].
    now destruct (String.eqb export_format "JSON").
  - rewrite Hd. unfold ret. cbv beta iota. cbn [orb].
    destruct (py_truth description); [|reflexivity].
    rewrite Ht. cbv beta iota. rewrite Hd. cbv beta iota.
    rewrite Hg. cbv beta iota. rewrite Hm. cbv beta iota.
    now destruct (String.eqb export_format "JSON").
Qed.

Lemma on_export_cases_witness :
  on_export "CSV" "2024-05-01T12:00:00" "20240501_120000" after_generate =
    (Val ExportNothing, after_generate).
Proof.
  apply (on_export_cases "CSV" "2024-05-01T12:00:00" "20240501_120000"
           after_generate
           (py_strs ["A"; "B"; "C"; "D"; "E"; "F"; "G"; "H"])
           (PyStr "") (PyDict []) (PyDict []));
    reflexivity.
Defined.

(* ------------------------------------------------------------------ *)

Lemma py_last_length {A} n (l : list A) : length (py_last n l) = Nat.min n (length l).
Proof. unfold py_last. rewrite length_skipn. lia. Qed.

(** The history expander lists at most ten entries, the newest first: its
    list is the first ten of the reversed history, and the entry a run has
    just appended is at its top, in front of the nine newest of before. *)
Theorem history_window_newest_first {A : Type} (history : list A) (entry : A) :
  history_window history = firstn 10 (rev history) /\
  length (history_window history) = Nat.min 10 (length history) /\
  history_window (history ++ [entry]) = entry :: firstn 9 (history_window history).
Proof.
  assert (Hw : forall l : list A, history_window l = firstn 10 (rev l)).
  { intros l. unfold history_window, py_last. now rewrite firstn_rev. }
  split; [apply Hw|]. split.
  - unfold history_window. now rewrite length_rev, py_last_length.
  - rewrite !Hw, rev_app_distr. simpl rev. simpl app.
    cbn [firstn]. f_equal.
    rewrite firstn_firstn. reflexivity.
Qed.

(* ------------------------------------------------------------------ *)

(** A click on "Generate Content" calls the endpoint only with prompts
    built from the form, and only with those of the steps that are
    switched on. *)
Theorem on_generate_prompts endpoint (f : form) (now : string) (w : env) :
  session_ok (session w) ->
  exists evs,
    log (snd (on_generate endpoint f now w)) = log w ++ evs /\
    Forall (generate_only (form_prompts f)) evs.
Proof.
  intros Hok.
  destruct (all_space_cases (video_script f)) as [Hblank|Hscript].
  - unfold on_generate. rewrite (strip_all_space _ Hblank).
    eexists. split; [reflexivity|]. constructor; [exact I | constructor].
  - destruct (on_generate_run endpoint (fun _ => True)
                (call_default_total endpoint) f now w Hok Hscript)
      as (w' & Hrun & _ & (evs & Hl & Hevs) & _).
    rewrite Hrun. cbn [snd]. exists (evs ++ [EvMarkdown success_banner]).
    split; [exact Hl|]. apply Forall_app. split; [exact Hevs|].
    constructor; [exact I | constructor].
Qed.

Lemma on_generate_prompts_witness :
  exists evs,
    log after_generate = log fresh ++ evs /\
    Forall (generate_only (form_prompts three_titles_form)) evs.
Proof.
  apply (on_generate_prompts eight_titles_endpoint three_titles_form
           "2024-05-01T12:00:00" fresh).
  apply session_ok_fresh.
Defined.

(* ================================================================== *)
(** ** Prompt builder                                                  *)
(* ================================================================== *)

Lemma contains_middle before pat after :
  contains pat (before +:+ pat +:+ after) = true.
Proof. apply contains_spec. now exists before, after. Qed.

(** Each of the four prompts holds the script and the video type exactly
    as they were typed, with nothing escaped or cut. *)
Theorem prompts_embed_fields
    (content video_type target_audience keywords tone style_preferences
     channel_info video_length competitor_analysis : string) :
  let title := create_title_prompt content video_type target_audience keywords
                 tone style_preferences in
  let description := create_description_prompt content video_type target_audience
                       keywords channel_info video_length in
  let tags := create_tags_prompt content video_type keywords competitor_analysis in
  let thumbnail := create_thumbnail_prompt content video_type target_audience in
  Forall (fun prompt => contains content prompt = true /\
                        contains video_type prompt = true)
         [title; description; tags; thumbnail].
Proof.
  intros title description tags thumbnail.
  repeat constructor.
  - unfold title, create_title_prompt.
    rewrite <- 4 append_assoc. apply contains_middle.
  - apply contains_middle.
  - unfold description, create_description_prompt.
    rewrite <- 4 append_assoc. apply contains_middle.
  - apply contains_middle.
  - unfold tags, create_tags_prompt.
    rewrite <- 2 append_assoc. apply contains_middle.
  - apply contains_middle.
  - unfold thumbnail, create_thumbnail_prompt.
    rewrite <- 4 append_assoc. apply contains_middle.
  - apply contains_middle.
Qed.

(* ================================================================== *)
(** ** The fallback of extract_tags, in words                          *)
(* ================================================================== *)

Lemma is_sep_spec c : is_sep c = true <-> tag_separator c.
Proof.
  unfold is_sep, tag_separator.
  rewrite !orb_true_iff, !Ascii.eqb_eq. tauto.
Qed.

Lemma is_sep_false c : is_sep c = false <-> ~ tag_separator c.
Proof.
  rewrite <- is_sep_spec. destruct (is_sep c); split; congruence.
Qed.

Lemma space_code_spec n :
  (((9 <=? n) && (n <=? 13)) || ((28 <=? n) && (n <=? 32))
   || (n =? 133) || (n =? 160)) = true
  <-> In n [9; 10; 11; 12; 13; 28; 29; 30; 31; 32; 133; 160].
Proof.
  rewrite !orb_true_iff, !andb_true_iff, !Nat.leb_le, !Nat.eqb_eq.
  simpl. lia.
Qed.

Lemma is_space_spec c : is_space c = true <-> py_whitespace c.
Proof. unfold is_space, py_whitespace. apply space_code_spec. Qed.

Lemma is_space_false c : is_space c = false <-> ~ py_whitespace c.
Proof.
  rewrite <- is_space_spec. destruct (is_space c); split; congruence.
Qed.

Lemma all_space_blank s : all_space s = true -> blank s.
Proof.
  induction s as [|c s IH]; simpl; [intros _ x []|].
  intros H. apply andb_true_iff in H as [Hc Hs].
  intros x [<-|Hx]; [now apply is_space_spec | now apply IH].
Qed.

(** The pieces of [re.split(r'[,;|]+', s)] are the text cut at every
    maximal run of separators. *)
Lemma re_split_seps_split s : split_at_separators s (re_split_seps s).
Proof.
  induction s as [|c s IH].
  - apply split_last. intros c [].
  - cbn [re_split_seps]. destruct (is_sep c) eqn:Hc.
    + assert (Hrun : forall x, occurs x (String c EmptyString) -> tag_separator x).
      { intros x [<-|[]]. now apply is_sep_spec. }
      destruct s as [|d s'].
      * apply (split_more EmptyString (String c EmptyString) EmptyString [EmptyString]);
          [intros x [] | discriminate | exact Hrun | now left | exact IH].
      * destruct (is_sep d) eqn:Hd.
        -- inversion IH as [piece Hfree Hs Hp
                            | piece seps rest pieces Hfree Hne Hseps Hrest Hsplit Hs Hp].
           ++ exfalso. apply (Hfree d); [now left | now apply is_sep_spec].
           ++ destruct piece as [|e piece].
              ** apply (split_more EmptyString (String c seps) rest pieces);
                   try assumption; [discriminate|].
                 intros x [<-|Hx]; [now apply is_sep_spec | now apply Hseps].
              ** exfalso. rewrite append_cons in Hs. injection Hs as -> _.
                 apply (Hfree d); [now left | now apply is_sep_spec].
        -- apply (split_more EmptyString (String c EmptyString) (String d s')
                    (re_split_seps (String d s')));
             [intros x [] | discriminate | exact Hrun | | exact IH].
           right. exists d, s'. split; [reflexivity | now apply is_sep_false].
    + apply is_sep_false in Hc.
      inversion IH as [piece Hfree Hs Hp
                       | piece seps rest pieces Hfree Hne Hseps Hrest Hsplit Hs Hp].
      * apply split_last. intros x [<-|Hx]; [exact Hc | now apply Hfree].
      * apply (split_more (String c piece) seps rest pieces); try assumption.
        intros x [<-|Hx]; [exact Hc | now apply Hfree].
Qed.

Lemma rstrip_last_char r c :
  rstrip (r +:+ String c EmptyString) = r +:+ String c EmptyString ->
  is_space c = false.
Proof.
  intros H. apply rstrip_fixed_suffix in H; [|discriminate].
  simpl in H. destruct (is_space c); [discriminate | reflexivity].
Qed.

(** [piece.strip()] is the piece without the whitespace at its ends. *)
Lemma strip_trimmed_of piece : trimmed_of piece (strip piece).
Proof.
  destruct (lstrip_split piece) as (ws1 & Hp & H1).
  destruct (rstrip_split (lstrip piece)) as (ws2 & Hl & H2).
  fold (strip piece) in Hl.
  destruct (strip_trimmed piece) as [Hlt Hrt].
  exists ws1, ws2. split; [now rewrite <- Hl|].
  split; [now apply all_space_blank|]. split; [now apply all_space_blank|].
  split.
  - intros c r E. rewrite E in Hlt. apply is_space_false.
    now apply lstrip_fixed_head in Hlt.
  - intros c r E. rewrite E in Hrt. apply is_space_false.
    now apply rstrip_last_char in Hrt.
Qed.

Lemma Forall2_map_strip pieces : Forall2 trimmed_of pieces (map strip pieces).
Proof.
  induction pieces as [|piece pieces IH]; simpl; constructor;
    [apply strip_trimmed_of | exact IH].
Qed.

Lemma fallback_keeps_length tag :
  fallback_keeps tag =
    (2 <? String.length (strip tag)) && (String.length (strip tag) <? 30).
Proof.
  unfold fallback_keeps, len.
  destruct (Z.ltb_spec 2 (Z.of_nat (String.length (strip tag))));
    destruct (Nat.ltb_spec 2 (String.length (strip tag))); try lia;
    destruct (Z.ltb_spec (Z.of_nat (String.length (strip tag))) 30);
    destruct (Nat.ltb_spec (String.length (strip tag)) 30); try lia; reflexivity.
Qed.

Lemma not_stands_in pat s : ~ stands_in pat s -> contains pat s = false.
Proof.
  intros H. destruct (contains pat s) eqn:E; [|reflexivity].
  exfalso. apply H. now apply contains_spec.
Qed.

(* ------------------------------------------------------------------ *)
(** *** C6 *)

(** C6: when none of the three section markers stands in the response,
    the whole response is cut at every run of commas, semicolons and pipes,
    each piece is trimmed of the whitespace at its ends, and the result has
    the one key "all", whose list is the first 20, in order, of the trimmed
    tokens of more than 2 and fewer than 30 characters. *)
Theorem extract_tags_fallback (response : string) :
  ~ stands_in "Primary tags:" response ->
  ~ stands_in "Secondary tags:" response ->
  ~ stands_in "Trending tags:" response ->
  exists (pieces tokens all_tags : list string),
    split_at_separators response pieces /\
    Forall2 trimmed_of pieces tokens /\
    all_tags =
      firstn 20 (List.filter
                   (fun t => (2 <? String.length t) && (String.length t <? 30))
                   tokens) /\
    extract_tags response = [("all", all_tags)].
Proof.
  intros H1 H2 _.
  assert (Hlab : labeled response = false).
  { unfold labeled. now rewrite !not_stands_in by assumption. }
  rewrite (extract_tags_unlabeled _ Hlab).
  exists (re_split_seps response), (map strip (re_split_seps response)).
  eexists. split; [apply re_split_seps_split|].
  split; [apply Forall2_map_strip|]. split; [reflexivity|].
  rewrite filter_map_swap. do 4 f_equal.
  apply filter_ext. intros tag. apply fallback_keeps_length.
Qed.

Lemma extract_tags_fallback_witness :
  exists (pieces tokens all_tags : list string),
    split_at_separators flat_example pieces /\
    Forall2 trimmed_of pieces tokens /\
    all_tags =
      firstn 20 (List.filter
                   (fun t => (2 <? String.length t) && (String.length t <? 30))
                   tokens) /\
    extract_tags flat_example = [("all", all_tags)].
Proof.
  apply (extract_tags_fallback flat_example);
    intros H; apply contains_spec in H; discriminate H.
Defined.
